(** * A banking backend on a managed relational store

    Shallow embedding of the request handlers under [supabase/functions]:
    signup, create-account, get-transactions, and the four handlers whose
    file names are not known, called here create-transfer, get-balance,
    get-profile and, for the combined handler of deposits, withdrawals and
    transfers, [Transact].

    Conventions of the model.
    - Money is counted in the smallest currency unit, as an integer [Z];
      IEEE rounding of JavaScript numbers is outside the model, and
      [parseFloat] of a balance is the balance.
    - The relational store is a record of tables, each a list of rows in
      insertion order.  Every call to the store is one step: it is logged in
      a trace, and it may be refused by the store (constraint violation,
      missing column, network failure); the refusal is decided by the
      environment, per step ([fault]).
    - The identity provider, the clock, random identifiers and generated
      reference numbers belong to the environment as well.
    - Request bodies are already parsed, and typed as the TypeScript
      interfaces of the handlers declare them.
    - The triggers and constraints of the migrations are the store's: the
      trigger that stamps [updated_at] is part of [update_balance], a
      violated constraint is a refusal. *)

From Stdlib Require Import ZArith List String Ascii Bool Lia Permutation Sorted.
From Stdlib Require DecimalString.
Import ListNotations.
Local Open Scope string_scope.
Local Open Scope Z_scope.

(** ** Rows of the four tables *)

Record Account := mkAccount {
  acc_id : string;
  acc_user_id : string;
  acc_account_number : string;
  acc_account_type : string;
  acc_balance : Z;
  acc_currency : string;
  acc_status : string;
  acc_created_at : Z;
  acc_updated_at : Z
}.

Record Transaction := mkTransaction {
  tx_id : string;
  tx_account_id : option string;
  tx_account_number : option string;
  tx_type : string;
  tx_amount : Z;
  tx_balance_after : Z;
  tx_description : option string;
  tx_reference_number : option string;
  tx_status : string;
  tx_created_at : Z
}.

Record Transfer := mkTransfer {
  tr_id : string;
  tr_from_account_id : string;
  tr_to_account_id : string;
  tr_amount : Z;
  tr_reference_number : option string;
  tr_notes : option string;
  tr_status : string;
  tr_completed_at : option Z
}.

Record Profile := mkProfile {
  pr_id : string;
  pr_full_name : string;
  pr_phone : option string;
  pr_date_of_birth : option string;
  pr_address : option string;
  pr_created_at : Z;
  pr_updated_at : Z
}.

Record DB := mkDB {
  accounts : list Account;
  transactions : list Transaction;
  transfers : list Transfer;
  profiles : list Profile
}.

(** ** The identity provider *)

Record User := mkUser { user_id : string; user_email : string }.

Record Session := mkSession {
  access_token : string;
  refresh_token : string;
  expires_in : Z;
  expires_at : Z
}.

Inductive SignUpResult :=
| SignUpError (message : string)
| SignUpData (user : option User) (session : option Session).

(** ** The environment of one request *)

Record Env := mkEnv {
  (* [supabase.auth.getUser(token)]: [None] stands for [authError || !user] *)
  getUser : string -> option User;
  (* [supabase.auth.signUp({email, password})] *)
  signUp : string -> string -> SignUpResult;
  (* the store refuses the call issued at this step, with this message *)
  fault : nat -> option string;
  (* [now()] and [new Date()] at this step, in milliseconds *)
  clock : nat -> Z;
  (* [gen_random_uuid()] at this step; row [i] of a bulk insert at step [n]
     takes [uuid (n + i)] *)
  uuid : nat -> string;
  (* the value [generate_reference_number()] returns at this step *)
  generate_reference_number : nat -> string;
  (* the value [generate_account_number()] returns at this step *)
  generate_account_number : nat -> string
}.

(** ** Calls to the store, and their trace *)

Inductive Table := t_accounts | t_transactions | t_transfers | t_profiles.

Inductive Op :=
| OpSelect (t : Table)
| OpUpdate (t : Table)
| OpInsert (t : Table)
| OpRpc (fn : string).

Definition is_write (o : Op) : bool :=
  match o with
  | OpUpdate _ | OpInsert _ => true
  | OpSelect _ | OpRpc _ => false
  end.

Record Event := mkEvent { ev_op : Op; ev_ok : bool }.

Record World := mkWorld {
  w_db : DB;
  w_step : nat;
  w_trace : list Event
}.

Definition init (db : DB) : World :=
  {| w_db := db; w_step := 0%nat; w_trace := [] |}.

Definition ops (w : World) : list Op := map ev_op (w_trace w).
Definition writes (w : World) : list Op := filter is_write (ops w).

(** The [{ data, error }] pair every call of the client library returns. *)
Record PgResult (A : Type) := mkPg { data : option A; error : option string }.
Arguments mkPg {A} _ _.
Arguments data {A} _.
Arguments error {A} _.

Definition pg_ok {A} (a : A) : PgResult A := mkPg (Some a) None.
Definition pg_null {A} : PgResult A := mkPg None None.
Definition pg_error {A} (e : string) : PgResult A := mkPg None (Some e).

(** ** The monad of a handler: state passing with exceptions *)

Inductive Result (A : Type) :=
| Ok (a : A)
| Throw (message : string).
Arguments Ok {A} _.
Arguments Throw {A} _.

Definition M (A : Type) : Type := World -> Result A * World.

Definition ret {A} (a : A) : M A := fun w => (Ok a, w).

Definition bind {A B} (m : M A) (k : A -> M B) : M B :=
  fun w =>
    match m w with
    | (Ok a, w') => k a w'
    | (Throw e, w') => (Throw e, w')
    end.

Definition throw {A} (e : string) : M A := fun w => (Throw e, w).

(** [try { ... } catch (error) { handler }] *)
Definition try_catch {A} (m : M A) (handler : string -> M A) : M A :=
  fun w =>
    match m w with
    | (Ok a, w') => (Ok a, w')
    | (Throw e, w') => handler e w'
    end.

Declare Scope handler_scope.
Delimit Scope handler_scope with handler.
Notation "x <- m ;; k" := (bind m (fun x => k))
  (at level 61, m at next level, right associativity) : handler_scope.
Notation "m ;;; k" := (bind m (fun _ => k))
  (at level 61, right associativity) : handler_scope.
Local Open Scope handler_scope.

(** ** JavaScript helpers *)

(** [!s] for a value that is a string or [null]. *)
Definition falsy (s : option string) : bool :=
  match s with
  | None => true
  | Some s => String.eqb s ""
  end.

(** [s.replace(pat, rep)] with a string pattern: the first occurrence only. *)
Definition replace (pat rep s : string) : string :=
  match index 0 pat s with
  | Some i =>
      substring 0 i s ++ rep ++
      substring (i + String.length pat) (String.length s - (i + String.length pat)) s
  | None => s
  end.

(** [parseFloat(x)] of a stored balance. *)
Definition parseFloat (x : Z) : Z := x.

(** [a || b] on optional strings. *)
Definition or_else (a : option string) (b : string) : string :=
  if falsy a then b else match a with Some s => s | None => b end.

(** [a || null] on optional strings. *)
Definition or_null (a : option string) : option string :=
  if falsy a then None else a.

(** [s.toUpperCase()], on the ASCII letters. *)
Definition upper_ascii (c : ascii) : ascii :=
  let n := nat_of_ascii c in
  if (Nat.leb 97 n && Nat.leb n 122)%bool then ascii_of_nat (n - 32) else c.

Fixpoint toUpperCase (s : string) : string :=
  match s with
  | EmptyString => EmptyString
  | String c s' => String (upper_ascii c) (toUpperCase s')
  end.

(** [parseInt(s)] without a radix: leading white space, a sign, an optional
    [0x] prefix, then the longest run of digits; [None] is [NaN]. *)
Definition is_space (c : ascii) : bool :=
  let n := nat_of_ascii c in
  (Nat.eqb n 32 || (Nat.leb 9 n && Nat.leb n 13))%bool.

Fixpoint trim_start (s : string) : string :=
  match s with
  | String c s' => if is_space c then trim_start s' else s
  | EmptyString => s
  end.

Definition digit_value (c : ascii) : option Z :=
  let n := Z.of_nat (nat_of_ascii c) in
  if (48 <=? n) && (n <=? 57) then Some (n - 48)
  else if (97 <=? n) && (n <=? 122) then Some (n - 87)
  else if (65 <=? n) && (n <=? 90) then Some (n - 55)
  else None.

Fixpoint digits (radix : Z) (s : string) (acc : option Z) : option Z :=
  match s with
  | String c s' =>
      match digit_value c with
      | Some d =>
          if d <? radix then
            digits radix s' (Some (radix * match acc with Some a => a | None => 0 end + d))
          else acc
      | None => acc
      end
  | EmptyString => acc
  end.

Definition parseInt (s : string) : option Z :=
  let s := trim_start s in
  let signed :=
    match s with
    | String "-" s' => (-1, s')
    | String "+" s' => (1, s')
    | _ => (1, s)
    end in
  let based :=
    match snd signed with
    | String "0" (String "x" s') => (16, s')
    | String "0" (String "X" s') => (16, s')
    | s' => (10, s')
    end in
  option_map (Z.mul (fst signed)) (digits (fst based) (snd based) None).

(** [l.slice(0, end)]: [NaN] counts as 0, a negative end counts from the
    end of the list. *)
Definition slice0 {A} (end_ : option Z) (l : list A) : list A :=
  let len := Z.of_nat (List.length l) in
  let rel := match end_ with Some e => e | None => 0 end in
  let final := if rel <? 0 then Z.max (len + rel) 0 else Z.min rel len in
  firstn (Z.to_nat final) l.

(** [l.sort(cmp)]: the sort of the runtime is stable, so with a consistent
    comparator its result is that of a stable insertion sort. *)
Fixpoint sort_insert {A} (cmp : A -> A -> Z) (x : A) (l : list A) : list A :=
  match l with
  | [] => [x]
  | y :: l' => if cmp x y <=? 0 then x :: y :: l' else y :: sort_insert cmp x l'
  end.

Fixpoint Array_sort {A} (cmp : A -> A -> Z) (l : list A) : list A :=
  match l with
  | [] => []
  | x :: l' => sort_insert cmp x (Array_sort cmp l')
  end.

(** A value that is a non-empty string, or nothing: the branch [if (!s)]
    is the [None] case. *)
Definition truthy (s : option string) : option string :=
  if falsy s then None else s.

(** ** Requests and responses *)

Record Request (B : Type) := mkRequest {
  method : string;
  authorization : option string;
  query : list (string * string);
  payload : B
}.
Arguments mkRequest {B} _ _ _ _.
Arguments method {B} _.
Arguments authorization {B} _.
Arguments query {B} _.
Arguments payload {B} _.

(** [url.searchParams.get(name)] *)
Fixpoint searchParams_get (q : list (string * string)) (name : string) : option string :=
  match q with
  | [] => None
  | (k, v) :: q' => if String.eqb k name then Some v else searchParams_get q' name
  end.

(** The account as get-balance returns it. *)
Record AccountView := mkAccountView {
  av_account_number : string;
  av_account_type : string;
  av_balance : Z;
  av_currency : string;
  av_status : string;
  av_created_at : Z;
  av_updated_at : Z
}.

(** A row of [select('account_number, account_type, balance, currency,
    status, created_at')]. *)
Record AccountSummary := mkAccountSummary {
  as_account_number : string;
  as_account_type : string;
  as_balance : Z;
  as_currency : string;
  as_status : string;
  as_created_at : Z
}.

(** An entry of the list get-transactions returns. *)
Inductive CombinedRecord :=
| TransactionRecord (id : string) (transaction_type : string) (amount : Z)
    (account_number : option string) (balance_after : Z)
    (description reference_number : option string) (status : string)
    (created_at : Z)
| TransferRecord (id : string) (from_account_number to_account_number : option string)
    (amount : Z) (notes reference_number : option string) (status : string)
    (created_at : option Z).

(** The JSON bodies of the handlers.  The CORS and content-type headers are
    the same constant on every response and are left out. *)
Inductive Body :=
| BNull
| BInternalServerError
| BError (message : string)
| BTransfer (transfer : option Transfer) (reference_number : option string)
| BTransaction (transaction : option Transaction)
| BAccount (account : option Account)
| BBalance (profile : option Profile) (email : User) (account : AccountView)
    (all_accounts : list AccountSummary) (total_balance : Z)
| BProfile (profile : option Profile) (accounts : list AccountSummary)
    (total_balance : Z) (email : string)
| BTransactions (records : list CombinedRecord)
| BSignup (user : User) (profile : option Profile) (session : option Session)
    (message : string).

Record Response := mkResponse { status : nat; body : Body }.

Definition json (st : nat) (b : Body) : M Response := ret (mkResponse st b).

(** [Deno.serve(handler)]: a rejection the handler does not catch is answered
    by the runtime with a plain 500. *)
Definition Deno_serve (h : M Response) (w : World) : Response * World :=
  match h w with
  | (Ok r, w') => (r, w')
  | (Throw _, w') => (mkResponse 500 BInternalServerError, w')
  end.

(** ** The client of the store *)

Definition cardinality_error : string :=
  "JSON object requested, multiple (or no) rows returned".

(** [.single()]: exactly one row, or an error. *)
Definition single {A} (rows : list A) : PgResult A :=
  match rows with
  | [r] => pg_ok r
  | _ => pg_error cardinality_error
  end.

(** [.maybeSingle()]: no row is [null] without an error. *)
Definition maybeSingle {A} (rows : list A) : PgResult A :=
  match rows with
  | [] => pg_null
  | [r] => pg_ok r
  | _ => pg_error cardinality_error
  end.

Definition is_none {A} (o : option A) : bool :=
  match o with None => true | Some _ => false end.

(** [.order(key, { ascending: false })]: a stable descending sort, [null]
    first. *)
Definition key_le (a b : option Z) : bool :=
  match a, b with
  | _, None => true
  | None, Some _ => false
  | Some x, Some y => x <=? y
  end.

Fixpoint insert_desc {A} (key : A -> option Z) (x : A) (l : list A) : list A :=
  match l with
  | [] => [x]
  | y :: l' => if key_le (key y) (key x) then x :: y :: l' else y :: insert_desc key x l'
  end.

Fixpoint order_desc {A} (key : A -> option Z) (l : list A) : list A :=
  match l with
  | [] => []
  | x :: l' => insert_desc key x (order_desc key l')
  end.

Definition set_balance (b : Z) (now : Z) (a : Account) : Account :=
  {| acc_id := acc_id a; acc_user_id := acc_user_id a;
     acc_account_number := acc_account_number a;
     acc_account_type := acc_account_type a;
     acc_balance := b;
     acc_currency := acc_currency a; acc_status := acc_status a;
     acc_created_at := acc_created_at a;
     (* trigger update_accounts_updated_at *)
     acc_updated_at := now |}.

(** The rows of [accounts] after [update({ balance: b })] on those that
    satisfy [p]. *)
Definition update_where (p : Account -> bool) (b now : Z) (l : list Account) : list Account :=
  map (fun a => if p a then set_balance b now a else a) l.

Definition with_accounts (db : DB) (l : list Account) : DB :=
  {| accounts := l; transactions := transactions db;
     transfers := transfers db; profiles := profiles db |}.
Definition with_transactions (db : DB) (l : list Transaction) : DB :=
  {| accounts := accounts db; transactions := l;
     transfers := transfers db; profiles := profiles db |}.
Definition with_transfers (db : DB) (l : list Transfer) : DB :=
  {| accounts := accounts db; transactions := transactions db;
     transfers := l; profiles := profiles db |}.
Definition with_profiles (db : DB) (l : list Profile) : DB :=
  {| accounts := accounts db; transactions := transactions db;
     transfers := transfers db; profiles := l |}.

(** Rows a bulk insert creates: the store fills in the identifier and the
    creation time of each. *)
Fixpoint fill_rows {A} (ids : nat -> string) (now : Z) (i : nat)
    (rows : list (string -> Z -> A)) : list A :=
  match rows with
  | [] => []
  | r :: rest => r (ids i) now :: fill_rows ids now (S i) rest
  end.

Section Store.
Variable env : Env.

(** One call to the store: it takes a step, is logged, and is either
    refused by the store or executed. *)
Definition call {A} (op : Op) (exec : DB -> nat -> PgResult A * DB) : M (PgResult A) :=
  fun w =>
    let n := w_step w in
    match fault env n with
    | Some e =>
        (Ok (pg_error e),
         {| w_db := w_db w; w_step := S n;
            w_trace := w_trace w ++ [mkEvent op false] |})
    | None =>
        let r := exec (w_db w) n in
        (Ok (fst r),
         {| w_db := snd r; w_step := S n;
            w_trace := w_trace w ++ [mkEvent op (is_none (error (fst r)))] |})
    end.

(** [new Date()] *)
Definition new_Date : M Z := fun w => (Ok (clock env (w_step w)), w).

Definition select_accounts {A} (p : Account -> bool)
    (shape : list Account -> PgResult A) : M (PgResult A) :=
  call (OpSelect t_accounts) (fun db _ => (shape (filter p (accounts db)), db)).

Definition select_profiles {A} (p : Profile -> bool)
    (shape : list Profile -> PgResult A) : M (PgResult A) :=
  call (OpSelect t_profiles) (fun db _ => (shape (filter p (profiles db)), db)).

Definition select_transactions {A} (p : Transaction -> bool)
    (shape : list Transaction -> PgResult A) : M (PgResult A) :=
  call (OpSelect t_transactions) (fun db _ => (shape (filter p (transactions db)), db)).

(** [.from('accounts').update({ balance }).eq(...)] *)
Definition update_balance (p : Account -> bool) (b : Z) : M (PgResult unit) :=
  call (OpUpdate t_accounts)
    (fun db n =>
       (pg_null, with_accounts db (update_where p b (clock env n) (accounts db)))).

(** [.from('transfers').insert({...}).select()] followed by [shape] *)
Definition insert_transfer (row : string -> Transfer)
    (shape : list Transfer -> PgResult Transfer) : M (PgResult Transfer) :=
  call (OpInsert t_transfers)
    (fun db n =>
       let r := row (uuid env n) in
       (shape [r], with_transfers db (transfers db ++ [r]))).

(** [.from('transactions').insert([...])] *)
Definition insert_transactions (rows : list (string -> Z -> Transaction)) : M (PgResult unit) :=
  call (OpInsert t_transactions)
    (fun db n =>
       (pg_null,
        with_transactions db
          (transactions db ++
           fill_rows (fun i => (uuid env (n + i))) (clock env n) 0 rows))).

(** [.from('transactions').insert({...}).select().maybeSingle()] *)
Definition insert_transaction (row : string -> Z -> Transaction) : M (PgResult Transaction) :=
  call (OpInsert t_transactions)
    (fun db n =>
       let r := row (uuid env n) (clock env n) in
       (maybeSingle [r], with_transactions db (transactions db ++ [r]))).

(** [.from('accounts').insert({...}).select().single()] *)
Definition insert_account (row : string -> Z -> Account) : M (PgResult Account) :=
  call (OpInsert t_accounts)
    (fun db n =>
       let r := row (uuid env n) (clock env n) in
       (single [r], with_accounts db (accounts db ++ [r]))).

(** [.from('profiles').insert({...}).select().single()] *)
Definition insert_profile (row : Z -> Profile) : M (PgResult Profile) :=
  call (OpInsert t_profiles)
    (fun db n =>
       let r := row (clock env n) in
       (single [r], with_profiles db (profiles db ++ [r]))).

(** [supabase.rpc(fn)] of a stored function that returns a text. *)
Definition rpc (fn : string) (gen : nat -> string) : M (PgResult string) :=
  call (OpRpc fn) (fun db n => (pg_ok (gen n), db)).
End Store.

(** [authHeader.replace('Bearer ', '')] *)
Definition bearer (authHeader : string) : string := replace "Bearer " "" authHeader.

(** The caller a request authenticates as: the header must be present and
    not empty, and the identity provider must accept its token. *)
Definition caller {B} (env : Env) (req : Request B) : option User :=
  match truthy (authorization req) with
  | None => None
  | Some authHeader => getUser env (bearer authHeader)
  end.

Definition preflight {B} (req : Request B) : bool := String.eqb (method req) "OPTIONS".

(** ** create-transfer *)

Module CreateTransfer.

Record TransferRequest := mkTransferRequest {
  from_account_id : string;
  to_account_number : string;
  amount : Z;
  notes : option string
}.

(** [.eq('id', from_account_id).eq('user_id', user.id).eq('status', 'active')] *)
Definition source (user : User) (b : TransferRequest) (a : Account) : bool :=
  String.eqb (acc_id a) (from_account_id b)
  && String.eqb (acc_user_id a) (user_id user)
  && String.eqb (acc_status a) "active".

(** [.eq('account_number', to_account_number).eq('status', 'active')] *)
Definition destination (b : TransferRequest) (a : Account) : bool :=
  String.eqb (acc_account_number a) (to_account_number b)
  && String.eqb (acc_status a) "active".

Section Handler.
Variable env : Env.

(** The transfer proper, once the caller is known and the amount is
    positive: lookups, guards, the two balance updates, the transfer
    record and the two transaction records. *)
Definition transfer (user : User) (b : TransferRequest) : M Response :=
  (* Verify from_account belongs to user *)
  r1 <- select_accounts env (source user b) single ;;
  match error r1, data r1 with
  | None, Some fromAccount =>
    (* Check sufficient balance *)
    if acc_balance fromAccount <? amount b then
      json 400 (BError "Insufficient funds")
    else
      (* Find destination account *)
      r2 <- select_accounts env (destination b) single ;;
      match error r2, data r2 with
      | None, Some toAccount =>
        if String.eqb (acc_id fromAccount) (acc_id toAccount) then
          json 400 (BError "Cannot transfer to the same account")
        else
          (* Generate reference number *)
          rn <- rpc env "generate_reference_number" (generate_reference_number env) ;;
          let refNumber := data rn in
          (* Update balances *)
          let newFromBalance := parseFloat (acc_balance fromAccount) - amount b in
          let newToBalance := parseFloat (acc_balance toAccount) + amount b in
          u1 <- update_balance env
                  (fun a => String.eqb (acc_id a) (acc_id fromAccount)) newFromBalance ;;
          match error u1 with
          | Some updateFromError => throw updateFromError
          | None =>
            u2 <- update_balance env
                    (fun a => String.eqb (acc_id a) (acc_id toAccount)) newToBalance ;;
            match error u2 with
            | Some updateToError =>
              (* Rollback from account *)
              update_balance env
                (fun a => String.eqb (acc_id a) (acc_id fromAccount))
                (acc_balance fromAccount) ;;;
              throw updateToError
            | None =>
              (* Create transfer record *)
              now <- new_Date env ;;
              t <- insert_transfer env
                     (fun id =>
                        {| tr_id := id;
                           tr_from_account_id := acc_id fromAccount;
                           tr_to_account_id := acc_id toAccount;
                           tr_amount := amount b;
                           tr_reference_number := refNumber;
                           tr_notes := notes b;
                           tr_status := "completed";
                           tr_completed_at := Some now |}) single ;;
              match error t with
              | Some transferError => throw transferError
              | None =>
                (* Create transaction records *)
                insert_transactions env
                  [ (fun id created =>
                       {| tx_id := id;
                          tx_account_id := Some (acc_id fromAccount);
                          tx_account_number := None;
                          tx_type := "transfer";
                          tx_amount := - amount b;
                          tx_balance_after := newFromBalance;
                          tx_description := Some ("Transfer to " ++ to_account_number b);
                          tx_reference_number := refNumber;
                          tx_status := "completed";
                          tx_created_at := created |});
                    (fun id created =>
                       {| tx_id := id;
                          tx_account_id := Some (acc_id toAccount);
                          tx_account_number := None;
                          tx_type := "transfer";
                          tx_amount := amount b;
                          tx_balance_after := newToBalance;
                          tx_description :=
                            Some ("Transfer from " ++ acc_account_number fromAccount);
                          tx_reference_number := refNumber;
                          tx_status := "completed";
                          tx_created_at := created |}) ] ;;;
                json 200 (BTransfer (data t) refNumber)
              end
            end
          end
      | _, _ => json 404 (BError "Destination account not found or inactive")
      end
  | _, _ => json 404 (BError "Source account not found or inactive")
  end.

Definition handler (req : Request TransferRequest) : M Response :=
  if String.eqb (method req) "OPTIONS" then json 200 BNull
  else
    try_catch
      (match truthy (authorization req) with
       | None => json 401 (BError "Missing authorization header")
       | Some authHeader =>
         let token := bearer authHeader in
         match getUser env token with
         | None => json 401 (BError "Unauthorized")
         | Some user =>
           if amount (payload req) <=? 0 then
             json 400 (BError "Amount must be greater than 0")
           else transfer user (payload req)
         end
       end)
      (fun message => json 500 (BError message)).

Definition serve (req : Request TransferRequest) : World -> Response * World :=
  Deno_serve (handler req).
End Handler.

End CreateTransfer.

(** ** The combined handler of deposits, withdrawals and transfers *)

Module Transact.

Record TransactionRequest := mkTransactionRequest {
  account_number : string;
  type : string;
  amount : Z;
  description : option string;
  reference_number : option string
}.

Record TransferRequest := mkTransferRequest {
  from_account_number : string;
  to_account_number : string;
  transfer_amount : Z;
  notes : option string
}.

(** [RequestBody]: the handler tells the two by [body.type === 'transfer']. *)
Inductive RequestBody :=
| TransactionBody (b : TransactionRequest)
| TransferBody (b : TransferRequest).

(** [.eq("account_number", n).eq("user_id", userId).eq("status", "active")] *)
Definition own_active (userId n : string) (a : Account) : bool :=
  String.eqb (acc_account_number a) n
  && String.eqb (acc_user_id a) userId
  && String.eqb (acc_status a) "active".

(** [.eq("account_number", n).eq("status", "active")] *)
Definition active (n : string) (a : Account) : bool :=
  String.eqb (acc_account_number a) n && String.eqb (acc_status a) "active".

Section Handler.
Variable env : Env.

Definition handleTransaction (userId : string) (req : TransactionRequest) : M Response :=
  if amount req <=? 0 then json 400 (BError "Amount must be > 0")
  else
    (* Get account *)
    r <- select_accounts env (own_active userId (account_number req)) maybeSingle ;;
    match error r, data r with
    | None, Some account =>
      (* Withdrawal check *)
      if String.eqb (type req) "withdrawal" && (acc_balance account <? amount req) then
        json 400 (BError "Insufficient funds")
      else
        (* Calculate new balance *)
        let amountChange :=
          if String.eqb (type req) "deposit" then amount req else - amount req in
        let newBalance := parseFloat (acc_balance account) + amountChange in
        (* Update balance *)
        u <- update_balance env
               (fun a => String.eqb (acc_account_number a) (acc_account_number account))
               newBalance ;;
        match error u with
        | Some updateError => throw updateError
        | None =>
          (* Insert transaction (amount always positive) *)
          t <- insert_transaction env
                 (fun id created =>
                    {| tx_id := id;
                       tx_account_id := None;
                       tx_account_number := Some (account_number req);
                       tx_type := type req;
                       tx_amount := amount req;
                       tx_balance_after := newBalance;
                       tx_description :=
                         Some (or_else (description req) (toUpperCase (type req)));
                       tx_reference_number := or_null (reference_number req);
                       tx_status := "completed";
                       tx_created_at := created |}) ;;
          match error t with
          | Some transactionError => throw transactionError
          | None => json 201 (BTransaction (data t))
          end
        end
    | _, _ => json 404 (BError "Account not found")
    end.

Definition handleTransfer (userId : string) (req : TransferRequest) : M Response :=
  if transfer_amount req <=? 0 then json 400 (BError "Amount must be > 0")
  else
    (* FROM account *)
    r1 <- select_accounts env (own_active userId (from_account_number req)) maybeSingle ;;
    match data r1 with
    | None => json 404 (BError "Source account not found")
    | Some fromAccount =>
      if acc_balance fromAccount <? transfer_amount req then
        json 400 (BError "Insufficient funds")
      else
        (* TO account *)
        r2 <- select_accounts env (active (to_account_number req)) maybeSingle ;;
        match data r2 with
        | None => json 404 (BError "Destination not found")
        | Some toAccount =>
          (* Get reference number *)
          refGen <- rpc env "generate_reference_number" (generate_reference_number env) ;;
          let reference_number := data refGen in
          (* New balances *)
          let newFromBalance := parseFloat (acc_balance fromAccount) - transfer_amount req in
          let newToBalance := parseFloat (acc_balance toAccount) + transfer_amount req in
          (* Update accounts *)
          update_balance env
            (fun a => String.eqb (acc_id a) (acc_id fromAccount)) newFromBalance ;;;
          update_balance env
            (fun a => String.eqb (acc_id a) (acc_id toAccount)) newToBalance ;;;
          (* Insert transfer record *)
          now <- new_Date env ;;
          t <- insert_transfer env
                 (fun id =>
                    {| tr_id := id;
                       tr_from_account_id := acc_id fromAccount;
                       tr_to_account_id := acc_id toAccount;
                       tr_amount := transfer_amount req;
                       tr_reference_number := reference_number;
                       tr_notes := notes req;
                       tr_status := "completed";
                       tr_completed_at := Some now |}) maybeSingle ;;
          (* Transaction logs (NO NEGATIVE AMOUNT) *)
          insert_transactions env
            [ (fun id created =>
                 {| tx_id := id;
                    tx_account_id := None;
                    tx_account_number := Some (acc_account_number fromAccount);
                    tx_type := "transfer";
                    tx_amount := transfer_amount req;
                    tx_balance_after := newFromBalance;
                    tx_description := Some ("Transfer to " ++ to_account_number req);
                    tx_reference_number := reference_number;
                    tx_status := "completed";
                    tx_created_at := created |});
              (fun id created =>
                 {| tx_id := id;
                    tx_account_id := None;
                    tx_account_number := Some (acc_account_number toAccount);
                    tx_type := "transfer";
                    tx_amount := transfer_amount req;
                    tx_balance_after := newToBalance;
                    tx_description := Some ("Transfer from " ++ from_account_number req);
                    tx_reference_number := reference_number;
                    tx_status := "completed";
                    tx_created_at := created |}) ] ;;;
          json 201 (BTransfer (data t) reference_number)
        end
    end.

(** The promise of [handleTransfer] and [handleTransaction] is returned
    without [await], so the [catch] below does not see their rejections. *)
Definition handler (req : Request RequestBody) : M Response :=
  if String.eqb (method req) "OPTIONS" then json 200 BNull
  else
    match truthy (authorization req) with
    | None => json 401 (BError "Missing authorization header")
    | Some authHeader =>
      let token := bearer authHeader in
      match getUser env token with
      | None => json 401 (BError "Unauthorized")
      | Some user =>
        match payload req with
        | TransferBody b => handleTransfer (user_id user) b
        | TransactionBody b => handleTransaction (user_id user) b
        end
      end
    end.

Definition serve (req : Request RequestBody) : World -> Response * World :=
  Deno_serve (handler req).
End Handler.

End Transact.

(** ** get-balance *)

Module GetBalance.

Definition view (a : Account) : AccountView :=
  {| av_account_number := acc_account_number a;
     av_account_type := acc_account_type a;
     av_balance := acc_balance a;
     av_currency := acc_currency a;
     av_status := acc_status a;
     av_created_at := acc_created_at a;
     av_updated_at := acc_updated_at a |}.

Definition summary (a : Account) : AccountSummary :=
  {| as_account_number := acc_account_number a;
     as_account_type := acc_account_type a;
     as_balance := acc_balance a;
     as_currency := acc_currency a;
     as_status := acc_status a;
     as_created_at := acc_created_at a |}.

(** [allAccounts?.reduce((sum, acc) => sum + parseFloat(acc.balance), 0) || 0] *)
Definition total (allAccounts : option (list AccountSummary)) : Z :=
  match allAccounts with
  | Some l => fold_left (fun sum acc => sum + parseFloat (as_balance acc)) l 0
  | None => 0
  end.

Definition or_empty {A} (l : option (list A)) : list A :=
  match l with Some l => l | None => [] end.

(** [.eq('user_id', userId)] *)
Definition belongs_to (userId : string) (a : Account) : bool :=
  String.eqb (acc_user_id a) userId.

(** The filter the query builder ends up with. *)
Definition located (accountNumber userIdParam : option string) (a : Account) : bool :=
  match truthy accountNumber with
  | Some n => String.eqb (acc_account_number a) n
  | None =>
      match truthy userIdParam with
      | Some u => String.eqb (acc_user_id a) u
      | None => true
      end
  end.

Section Handler.
Variable env : Env.

Definition handler (req : Request unit) : M Response :=
  if String.eqb (method req) "OPTIONS" then json 200 BNull
  else
    try_catch
      (let accountNumber := searchParams_get (query req) "account_number" in
       let userIdParam := searchParams_get (query req) "user_id" in
       if falsy accountNumber && falsy userIdParam then
         json 400 (BError "Either account_number or user_id query parameter is required")
       else
         match truthy (authorization req) with
         | None => json 401 (BError "Missing authorization header")
         | Some authHeader =>
           let token := bearer authHeader in
           (* AUTH *)
           match getUser env token with
           | None => json 401 (BError "Unauthorized")
           | Some user =>
             let userId := user_id user in
             r <- select_accounts env (located accountNumber userIdParam) maybeSingle ;;
             match error r with
             | Some e => throw e
             | None =>
               match data r with
               | None => json 404 (BError "Account not found")
               | Some account =>
                 (* Prevent access to other users' accounts *)
                 if negb (String.eqb (acc_user_id account) userId) then
                   json 403 (BError "Unauthorized access to this account")
                 else
                   (* FETCH PROFILE *)
                   p <- select_profiles env
                          (fun p => String.eqb (pr_id p) userId) maybeSingle ;;
                   match error p with
                   | Some profileError => throw profileError
                   | None =>
                     (* FETCH ALL USER ACCOUNTS *)
                     al <- select_accounts env (belongs_to userId)
                             (fun rows =>
                                pg_ok (map summary
                                         (order_desc (fun a => Some (acc_created_at a)) rows))) ;;
                     match error al with
                     | Some accountsError => throw accountsError
                     | None =>
                       (* Calculate total balance *)
                       let totalBalance := total (data al) in
                       json 200
                         (BBalance (data p) user (view account)
                            (or_empty (data al)) totalBalance)
                     end
                   end
               end
             end
           end
         end)
      (fun message => json 500 (BError message)).

Definition serve (req : Request unit) : World -> Response * World :=
  Deno_serve (handler req).
End Handler.

End GetBalance.

(** ** get-profile *)

Module GetProfile.

Section Handler.
Variable env : Env.

Definition handler (req : Request unit) : M Response :=
  if String.eqb (method req) "OPTIONS" then json 200 BNull
  else
    try_catch
      (match truthy (authorization req) with
       | None => json 401 (BError "Missing authorization header")
       | Some authHeader =>
         let token := bearer authHeader in
         match getUser env token with
         | None => json 401 (BError "Unauthorized")
         | Some user =>
           (* Get user profile *)
           p <- select_profiles env
                  (fun p => String.eqb (pr_id p) (user_id user)) maybeSingle ;;
           match error p with
           | Some profileError => throw profileError
           | None =>
             (* Get user accounts *)
             al <- select_accounts env (GetBalance.belongs_to (user_id user))
                     (fun rows =>
                        pg_ok (map GetBalance.summary
                                 (order_desc (fun a => Some (acc_created_at a)) rows))) ;;
             match error al with
             | Some accountsError => throw accountsError
             | None =>
               (* Calculate total balance across all accounts *)
               let totalBalance := GetBalance.total (data al) in
               json 200
                 (BProfile (data p) (GetBalance.or_empty (data al)) totalBalance
                    (user_email user))
             end
           end
         end
       end)
      (fun message => json 500 (BError message)).

Definition serve (req : Request unit) : World -> Response * World :=
  Deno_serve (handler req).
End Handler.

End GetProfile.

(** ** get-transactions *)

Module GetTransactions.

(** A row of the transfers query, with the two embedded accounts
    [from_account:from_account_id(account_number)] and
    [to_account:to_account_id(account_number)]. *)
Record TransferRow := mkTransferRow {
  row : Transfer;
  from_account : option string;
  to_account : option string
}.

Definition embed (db : DB) (id : string) : option string :=
  option_map acc_account_number
    (find (fun a => String.eqb (acc_id a) id) (accounts db)).

Definition join (db : DB) (tr : Transfer) : TransferRow :=
  {| row := tr;
     from_account := embed db (tr_from_account_id tr);
     to_account := embed db (tr_to_account_id tr) |}.

Definition of_transaction (t : Transaction) : CombinedRecord :=
  TransactionRecord (tx_id t) (tx_type t) (tx_amount t) (tx_account_number t)
    (tx_balance_after t) (tx_description t) (tx_reference_number t) (tx_status t)
    (tx_created_at t).

Definition of_transfer (tr : TransferRow) : CombinedRecord :=
  TransferRecord (tr_id (row tr)) (from_account tr) (to_account tr)
    (tr_amount (row tr)) (tr_notes (row tr)) (tr_reference_number (row tr))
    (tr_status (row tr)) (tr_completed_at (row tr)).

(** [new Date(r.created_at).getTime()]; [new Date(null)] is the epoch. *)
Definition getTime (r : CombinedRecord) : Z :=
  match r with
  | TransactionRecord _ _ _ _ _ _ _ _ created_at => created_at
  | TransferRecord _ _ _ _ _ _ _ created_at =>
      match created_at with Some t => t | None => 0 end
  end.

Definition by_date (a b : CombinedRecord) : Z := getTime b - getTime a.

(** Combine and sort all records by date *)
Definition combinedRecords (transactions : option (list Transaction))
    (transfers : option (list TransferRow)) (limit : string) : list CombinedRecord :=
  slice0 (parseInt limit)
    (Array_sort by_date
       (map of_transaction (GetBalance.or_empty transactions)
        ++ map of_transfer (GetBalance.or_empty transfers))).

(** [.eq('account_number', accountNumber).eq('user_id', user.id)] *)
Definition owned (user : User) (accountNumber : string) (a : Account) : bool :=
  String.eqb (acc_account_number a) accountNumber
  && String.eqb (acc_user_id a) (user_id user).

(** [.eq('account_number', accountNumber)] on the transactions *)
Definition on_account (accountNumber : string) (t : Transaction) : bool :=
  match tx_account_number t with
  | Some n => String.eqb n accountNumber
  | None => false
  end.

(** [.or(`from_account_id.eq.${id},to_account_id.eq.${id}`)] *)
Definition involves (id : string) (tr : Transfer) : bool :=
  String.eqb (tr_from_account_id tr) id || String.eqb (tr_to_account_id tr) id.

Section Handler.
Variable env : Env.

Definition handler (req : Request unit) : M Response :=
  if String.eqb (method req) "OPTIONS" then json 200 BNull
  else
    try_catch
      (match truthy (authorization req) with
       | None => json 401 (BError "Missing authorization header")
       | Some authHeader =>
         let token := bearer authHeader in
         match getUser env token with
         | None => json 401 (BError "Unauthorized")
         | Some user =>
           let accountNumber := searchParams_get (query req) "account_number" in
           let limit := or_else (searchParams_get (query req) "limit") "50" in
           match truthy accountNumber with
           | None => json 400 (BError "Missing account_number parameter")
           | Some accountNumber =>
             (* Get account by account_number and verify user owns it *)
             r <- select_accounts env (owned user accountNumber)
                    (fun rows => maybeSingle (map acc_id rows)) ;;
             match error r, data r with
             | None, Some account_id =>
               (* Get transactions for the account *)
               ts <- select_transactions env (on_account accountNumber)
                       (fun rows =>
                          pg_ok (order_desc (fun t => Some (tx_created_at t)) rows)) ;;
               match error ts with
               | Some transError => throw transError
               | None =>
                 (* Get transfers where account is sender or receiver *)
                 trs <- call env (OpSelect t_transfers)
                          (fun db _ =>
                             (pg_ok
                                (map (join db)
                                   (order_desc tr_completed_at
                                      (filter (involves account_id) (transfers db)))),
                              db)) ;;
                 match error trs with
                 | Some transferError => throw transferError
                 | None =>
                   json 200
                     (BTransactions (combinedRecords (data ts) (data trs) limit))
                 end
               end
             | _, _ => json 404 (BError "Account not found or unauthorized")
             end
           end
         end
       end)
      (fun message => json 500 (BError message)).

Definition serve (req : Request unit) : World -> Response * World :=
  Deno_serve (handler req).
End Handler.

End GetTransactions.

(** ** create-account *)

Module CreateAccount.

Record CreateAccountRequest := mkCreateAccountRequest {
  account_type : string;
  initial_deposit : option Z
}.

(** [['Current', 'Savings', 'Credit'].includes(account_type)] *)
Definition valid_type (t : string) : bool :=
  existsb (String.eqb t) ["Current"; "Savings"; "Credit"].

Section Handler.
Variable env : Env.

Definition handler (req : Request CreateAccountRequest) : M Response :=
  if String.eqb (method req) "OPTIONS" then json 200 BNull
  else
    try_catch
      (match truthy (authorization req) with
       | None => json 401 (BError "Missing authorization header")
       | Some authHeader =>
         let token := bearer authHeader in
         match getUser env token with
         | None => json 401 (BError "Unauthorized")
         | Some user =>
           let account_type := account_type (payload req) in
           (* initial_deposit = 0 *)
           let initial_deposit :=
             match initial_deposit (payload req) with Some d => d | None => 0 end in
           if negb (valid_type account_type) then
             json 400 (BError "Invalid account type")
           else
             (* Generate account number *)
             g <- rpc env "generate_account_number" (generate_account_number env) ;;
             match error g, data g with
             | Some genError, _ => throw genError
             | None, None =>
               (* not reached: the stored function returns a text *)
               throw "null value in column account_number"
             | None, Some accountNumber =>
               (* Create account *)
               let currency := "BHD" in
               a <- insert_account env
                      (fun id created =>
                         {| acc_id := id;
                            acc_user_id := user_id user;
                            acc_account_number := accountNumber;
                            acc_account_type := account_type;
                            acc_balance := initial_deposit;
                            acc_currency := currency;
                            acc_status := "active";
                            acc_created_at := created;
                            acc_updated_at := created |}) ;;
               match error a with
               | Some accountError => throw accountError
               | None =>
                 (* If initial deposit, create transaction *)
                 (if 0 <? initial_deposit then
                    rn <- rpc env "generate_reference_number"
                            (generate_reference_number env) ;;
                    insert_transactions env
                      [ (fun id created =>
                           {| tx_id := id;
                              tx_account_id := option_map acc_id (data a);
                              tx_account_number := None;
                              tx_type := "deposit";
                              tx_amount := initial_deposit;
                              tx_balance_after := initial_deposit;
                              tx_description := Some "Initial deposit";
                              tx_reference_number := data rn;
                              tx_status := "completed";
                              tx_created_at := created |}) ] ;;;
                    ret tt
                  else ret tt) ;;;
                 json 201 (BAccount (data a))
               end
             end
         end
       end)
      (fun message => json 500 (BError message)).

Definition serve (req : Request CreateAccountRequest) : World -> Response * World :=
  Deno_serve (handler req).
End Handler.

End CreateAccount.

(** ** signup *)

Module Signup.

Record SignupRequest := mkSignupRequest {
  email : string;
  password : string;
  full_name : string;
  phone : option string;
  date_of_birth : option string;
  address : option string
}.

Section Handler.
Variable env : Env.

Definition handler (req : Request SignupRequest) : M Response :=
  if String.eqb (method req) "OPTIONS" then json 200 BNull
  else
    try_catch
      (let b := payload req in
       if String.eqb (email b) "" || String.eqb (password b) ""
          || String.eqb (full_name b) "" then
         json 400 (BError "Email, password, and full name are required")
       else
         match signUp env (email b) (password b) with
         | SignUpError message => json 400 (BError message)
         | SignUpData None _ => json 500 (BError "Failed to create user")
         | SignUpData (Some user) session =>
           p <- insert_profile env
                  (fun created =>
                     {| pr_id := user_id user;
                        pr_full_name := full_name b;
                        pr_phone := or_null (phone b);
                        pr_date_of_birth := or_null (date_of_birth b);
                        pr_address := or_null (address b);
                        pr_created_at := created;
                        pr_updated_at := created |}) ;;
           match error p with
           | Some profileError => throw profileError
           | None =>
             json 201
               (BSignup user (data p) session "Signup successful. You can now log in.")
           end
         end)
      (fun message => json 500 (BError message)).

Definition serve (req : Request SignupRequest) : World -> Response * World :=
  Deno_serve (handler req).
End Handler.

End Signup.

(** ** The process: requests served one after the other

    Nothing but the store survives a request: each handler starts from
    [init], with a fresh step counter and an empty trace. *)

Inductive Call :=
| CallSignup (r : Request Signup.SignupRequest)
| CallCreateAccount (r : Request CreateAccount.CreateAccountRequest)
| CallCreateTransfer (r : Request CreateTransfer.TransferRequest)
| CallGetBalance (r : Request unit)
| CallGetProfile (r : Request unit)
| CallGetTransactions (r : Request unit)
| CallTransact (r : Request Transact.RequestBody).

Definition dispatch (env : Env) (c : Call) : World -> Response * World :=
  match c with
  | CallSignup r => Signup.serve env r
  | CallCreateAccount r => CreateAccount.serve env r
  | CallCreateTransfer r => CreateTransfer.serve env r
  | CallGetBalance r => GetBalance.serve env r
  | CallGetProfile r => GetProfile.serve env r
  | CallGetTransactions r => GetTransactions.serve env r
  | CallTransact r => Transact.serve env r
  end.

(** What one execution of a handler shows to the outside. *)
Record Outcome := mkOutcome {
  response : Response;
  issued : list Event;
  store : DB
}.

Definition execute (env : Env) (c : Call) (db : DB) : Outcome :=
  let r := dispatch env c (init db) in
  {| response := fst r; issued := w_trace (snd r); store := w_db (snd r) |}.

Definition written (o : Outcome) : list Event :=
  filter (fun e => is_write (ev_op e)) (issued o).

(** The sequence of executions of a history of requests, each with the
    environment it ran in. *)
Fixpoint serve_all (db : DB) (history : list (Env * Call)) : list Outcome * DB :=
  match history with
  | [] => ([], db)
  | (env, c) :: rest =>
      let o := execute env c db in
      let r := serve_all (store o) rest in
      (o :: fst r, snd r)
  end.

(** ** Reading a call: what the claims about "every request" speak of *)

Definition call_preflight (c : Call) : bool :=
  match c with
  | CallSignup r => preflight r
  | CallCreateAccount r => preflight r
  | CallCreateTransfer r => preflight r
  | CallGetBalance r => preflight r
  | CallGetProfile r => preflight r
  | CallGetTransactions r => preflight r
  | CallTransact r => preflight r
  end.

Definition call_caller (env : Env) (c : Call) : option User :=
  match c with
  | CallSignup r => caller env r
  | CallCreateAccount r => caller env r
  | CallCreateTransfer r => caller env r
  | CallGetBalance r => caller env r
  | CallGetProfile r => caller env r
  | CallGetTransactions r => caller env r
  | CallTransact r => caller env r
  end.

(** Every handler but signup asks the identity provider who calls. *)
Definition authenticates (c : Call) : bool :=
  match c with
  | CallSignup _ => false
  | _ => true
  end.

(** get-balance looks at its query parameters before the caller. *)
Definition lacks_parameters (c : Call) : bool :=
  match c with
  | CallGetBalance r =>
      falsy (searchParams_get (query r) "account_number")
      && falsy (searchParams_get (query r) "user_id")
  | _ => false
  end.

(** The amount of a deposit, withdrawal or transfer request. *)
Definition requested_amount (c : Call) : option Z :=
  match c with
  | CallCreateTransfer r => Some (CreateTransfer.amount (payload r))
  | CallTransact r =>
      match payload r with
      | Transact.TransferBody b => Some (Transact.transfer_amount b)
      | Transact.TransactionBody b => Some (Transact.amount b)
      end
  | _ => None
  end.

Definition amount_message (c : Call) : string :=
  match c with
  | CallCreateTransfer _ => "Amount must be greater than 0"
  | _ => "Amount must be > 0"
  end.

(** The query that finds the account a withdrawal or a transfer takes the
    money from. *)
Definition debited (c : Call) (user : User) : option (Account -> bool) :=
  match c with
  | CallCreateTransfer r => Some (CreateTransfer.source user (payload r))
  | CallTransact r =>
      match payload r with
      | Transact.TransferBody b =>
          Some (Transact.own_active (user_id user) (Transact.from_account_number b))
      | Transact.TransactionBody b =>
          if String.eqb (Transact.type b) "withdrawal" then
            Some (Transact.own_active (user_id user) (Transact.account_number b))
          else None
      end
  | _ => None
  end.

(** The query that finds the account a transfer pays into. *)
Definition credited (c : Call) : option (Account -> bool) :=
  match c with
  | CallCreateTransfer r => Some (CreateTransfer.destination (payload r))
  | CallTransact r =>
      match payload r with
      | Transact.TransferBody b => Some (Transact.active (Transact.to_account_number b))
      | Transact.TransactionBody _ => None
      end
  | _ => None
  end.

Definition is_transfer (c : Call) : bool :=
  match credited c with Some _ => true | None => false end.

(** The application-level guards of a transfer, on the store as the request
    finds it. *)
Definition guards_pass (env : Env) (db : DB) (c : Call) : Prop :=
  exists user a psrc pdst src dst,
    call_caller env c = Some user /\
    requested_amount c = Some a /\ 0 < a /\
    debited c user = Some psrc /\ credited c = Some pdst /\
    In src (accounts db) /\ psrc src = true /\ a <= acc_balance src /\
    In dst (accounts db) /\ pdst dst = true.

(** The calls of a transfer that runs to its end, and of one that rolls the
    first update back. *)
Definition transfer_steps : list Op :=
  [ OpSelect t_accounts; OpSelect t_accounts; OpRpc "generate_reference_number";
    OpUpdate t_accounts; OpUpdate t_accounts;
    OpInsert t_transfers; OpInsert t_transactions ].

Definition rollback_steps : list Op :=
  [ OpSelect t_accounts; OpSelect t_accounts; OpRpc "generate_reference_number";
    OpUpdate t_accounts; OpUpdate t_accounts; OpUpdate t_accounts ].

Definition prefix_of {A} (l1 l2 : list A) : Prop := exists rest, l2 = (l1 ++ rest)%list.


Definition sum_balances (l : list Account) : Z :=
  fold_right (fun a s => acc_balance a + s) 0 l.

(** The balances stored under an account identifier. *)
Definition balances (l : list Account) (id : string) : list Z :=
  map acc_balance (filter (fun a => String.eqb (acc_id a) id) l).

Definition balance_of (db : DB) (id : string) : list Z := balances (accounts db) id.

(** The status a transfer that ran to its end is answered with. *)
Definition success_status (c : Call) : nat :=
  match c with CallCreateTransfer _ => 200%nat | _ => 201%nat end.





(** ** A small bank, for the examples *)

Definition alice : User := mkUser "u-alice" "alice@example.com".
Definition bob : User := mkUser "u-bob" "bob@example.com".

Definition no_fault : nat -> option string := fun _ => None.

(** The store refuses the call issued at step [n]. *)
Definition fault_at (n : nat) : nat -> option string :=
  fun k => if Nat.eqb k n then Some "connection reset" else None.

Definition sample_env (faults : nat -> option string) : Env :=
  {| getUser := fun token =>
       if String.eqb token "alice-token" then Some alice
       else if String.eqb token "bob-token" then Some bob
       else None;
     signUp := fun email _ => SignUpData (Some (mkUser "u-carol" email)) None;
     fault := faults;
     clock := fun n => 1000 + Z.of_nat n;
     uuid := fun n => String (ascii_of_nat (97 + n)) "";
     generate_reference_number := fun _ => "REF20251106000042";
     generate_account_number := fun _ => "0000001003" |}.

Definition alice_account : Account :=
  mkAccount "acc-a" "u-alice" "0000001001" "Current" 100 "BHD" "active" 10 10.
Definition bob_account : Account :=
  mkAccount "acc-b" "u-bob" "0000001002" "Savings" 5 "BHD" "active" 20 20.

Definition sample_db : DB :=
  {| accounts := [alice_account; bob_account];
     transactions := []; transfers := []; profiles := [] |}.

Definition post {B} (token : option string) (b : B) : Request B :=
  mkRequest "POST" token [] b.
Definition get (token : option string) (q : list (string * string)) : Request unit :=
  mkRequest "GET" token q tt.

(** Requests of the examples. *)
Definition create_transfer_call (authHeader : string) (amount : Z) : Call :=
  CallCreateTransfer
    (post (Some authHeader)
       (CreateTransfer.mkTransferRequest "acc-a" "0000001002" amount None)).

Definition transfer_call (from to : string) (amount : Z) : Call :=
  CallTransact
    (post (Some "Bearer alice-token")
       (Transact.TransferBody (Transact.mkTransferRequest from to amount None))).

Definition transaction_call (type : string) (amount : Z) : Call :=
  CallTransact
    (post (Some "Bearer alice-token")
       (Transact.TransactionBody
          (Transact.mkTransactionRequest "0000001001" type amount None None))).

Definition signup_call : Call :=
  CallSignup
    (post None
       (Signup.mkSignupRequest "carol@example.com" "secret" "Carol" None None None)).

(** The store after a deposit of 7 and a transfer of 10 by Alice. *)
Definition ledger_db : DB :=
  snd (serve_all sample_db
         [ (sample_env no_fault, transaction_call "deposit" 7);
           (sample_env no_fault, transfer_call "0000001001" "0000001002" 10) ]).

Definition history_request (q : list (string * string)) : Request unit :=
  get (Some "Bearer alice-token") (("account_number", "0000001001") :: q).

(** ** Reading a call, continued *)

(** The handlers that only read. *)
Definition reads_only (c : Call) : bool :=
  match c with
  | CallGetBalance _ | CallGetProfile _ | CallGetTransactions _ => true
  | _ => false
  end.

(** ** The stored functions and the trigger of the migrations *)

Module Migrations.

(** [LPAD(s, n, fill)] with a fill of one character: [s] is cut on the right
    when it is longer than [n]. *)
Fixpoint padding (k : nat) (fill : ascii) : string :=
  match k with
  | O => EmptyString
  | S k' => String fill (padding k' fill)
  end.

Definition LPAD (s : string) (n : nat) (fill : ascii) : string :=
  if Nat.leb n (String.length s) then substring 0 n s
  else padding (n - String.length s) fill ++ s.

(** [FLOOR(RANDOM() * 10000000000)::text], for the whole number the floor
    is. *)
Definition text (floor : N) : string :=
  DecimalString.NilZero.string_of_uint (N.to_uint floor).

Definition taken (db : DB) (new_number : string) : bool :=
  existsb (fun a => String.eqb (acc_account_number a) new_number) (accounts db).

(** [generate_account_number()]: the loop draws until the number is free.
    [draws i] is the floor of the [i]-th draw; the loop of the model gives
    up after [fuel] draws. *)
Fixpoint generate_account_number (db : DB) (draws : nat -> N) (i fuel : nat)
    : option string :=
  match fuel with
  | O => None
  | S fuel' =>
      let new_number := LPAD (text (draws i)) 10 "0" in
      if taken db new_number then generate_account_number db draws (S i) fuel'
      else Some new_number
  end.




End Migrations.

Definition is_digit (c : ascii) : bool :=
  (Nat.leb 48 (nat_of_ascii c) && Nat.leb (nat_of_ascii c) 57)%bool.

Fixpoint all_digits (s : string) : bool :=
  match s with
  | EmptyString => true
  | String c s' => is_digit c && all_digits s'
  end.

(** The balances stored under an account number. *)
Definition balances_at (l : list Account) (n : string) : list Z :=
  map acc_balance (filter (fun a => String.eqb (acc_account_number a) n) l).

(** What a deposit or a withdrawal adds to the balance. *)
Definition amount_change (b : Transact.TransactionRequest) : Z :=
  if String.eqb (Transact.type b) "deposit" then Transact.amount b
  else - Transact.amount b.

(** Two states of the accounts table, row by row: the identity of each row
    is kept, and no account of somebody else than [uid] holds less than
    before. *)
Definition keeps_foreign_balances (uid : string) (l l' : list Account) : Prop :=
  Forall2
    (fun a a' =>
       acc_id a' = acc_id a /\
       acc_account_number a' = acc_account_number a /\
       acc_user_id a' = acc_user_id a /\
       acc_status a' = acc_status a /\
       (acc_user_id a <> uid -> acc_balance a <= acc_balance a'))
    l l'.

(** The calls that move money between or on existing accounts. *)
Definition moves_money (c : Call) : bool :=
  match c with
  | CallCreateTransfer _ | CallTransact _ => true
  | _ => false
  end.

(** The query that finds the account of the caller a request works on. *)
Definition own_account_query (c : Call) (user : User) : option (Account -> bool) :=
  match c with
  | CallCreateTransfer r => Some (CreateTransfer.source user (payload r))
  | CallTransact r =>
      match payload r with
      | Transact.TransferBody b =>
          Some (Transact.own_active (user_id user) (Transact.from_account_number b))
      | Transact.TransactionBody b =>
          Some (Transact.own_active (user_id user) (Transact.account_number b))
      end
  | _ => None
  end.

Definition source_not_found (c : Call) : string :=
  match c with
  | CallCreateTransfer _ => "Source account not found or inactive"
  | CallTransact r =>
      match payload r with
      | Transact.TransferBody _ => "Source account not found"
      | Transact.TransactionBody _ => "Account not found"
      end
  | _ => ""
  end.

Definition destination_not_found (c : Call) : string :=
  match c with
  | CallCreateTransfer _ => "Destination account not found or inactive"
  | _ => "Destination not found"
  end.

(** * Properties *)

(** ** Authentication *)

Lemma caller_some {B} env (req : Request B) user :
  caller env req = Some user ->
  exists h, truthy (authorization req) = Some h /\ getUser env (bearer h) = Some user.
Proof.
  unfold caller. destruct (truthy (authorization req)) as [h|]; [|discriminate].
  intros H. exists h. split; [reflexivity | exact H].
Qed.

Lemma caller_none {B} env (req : Request B) :
  caller env req = None ->
  truthy (authorization req) = None \/
  exists h, truthy (authorization req) = Some h /\ getUser env (bearer h) = None.
Proof.
  unfold caller. destruct (truthy (authorization req)) as [h|].
  - intros H. right. exists h. split; [reflexivity | exact H].
  - intros _. left. reflexivity.
Qed.

(** Rewrites the authentication prologue of a handler with what is known
    about the caller. *)
Ltac authenticate Hc :=
  first
    [ let h := fresh "h" in
      let Hh := fresh "Hh" in
      let Hu := fresh "Hu" in
      destruct (caller_some _ _ _ Hc) as [h [Hh Hu]]; rewrite ?Hh, ?Hu
    | let h := fresh "h" in
      let Hh := fresh "Hh" in
      let Hu := fresh "Hu" in
      destruct (caller_none _ _ Hc) as [Hh | [h [Hh Hu]]]; rewrite ?Hh, ?Hu ].

Ltac open_handler :=
  unfold execute, dispatch,
    Signup.serve, CreateAccount.serve, CreateTransfer.serve, GetBalance.serve,
    GetProfile.serve, GetTransactions.serve, Transact.serve, Deno_serve,
    Signup.handler, CreateAccount.handler, CreateTransfer.handler, GetBalance.handler,
    GetProfile.handler, GetTransactions.handler, Transact.handler, try_catch, json, ret.

(** C5, amended: every handler except signup authenticates the caller before
    it touches the store.  A request that is not a preflight and has no
    usable Authorization header, or a token the identity provider rejects,
    issues no call to the store and leaves it as it was; the answer is 401,
    except that get-balance answers 400 when both of its query parameters
    are missing, which it checks first. *)
Theorem unauthenticated_request_touches_nothing :
  forall env db c,
    authenticates c = true ->
    call_preflight c = false ->
    call_caller env c = None ->
    issued (execute env c db) = [] /\
    store (execute env c db) = db /\
    status (response (execute env c db)) = (if lacks_parameters c then 400 else 401)%nat.
Proof.
  intros env db c Ha Hp Hc.
  destruct c as [r|r|r|r|r|r|r]; simpl in Ha, Hp, Hc; try discriminate;
    unfold preflight in Hp; open_handler; rewrite Hp; simpl lacks_parameters.
  - authenticate Hc; repeat split.
  - authenticate Hc; repeat split.
  - destruct (falsy (searchParams_get (query r) "account_number")
              && falsy (searchParams_get (query r) "user_id")).
    + repeat split.
    + authenticate Hc; repeat split.
  - authenticate Hc; repeat split.
  - authenticate Hc; repeat split.
  - authenticate Hc; repeat split.
Qed.

Lemma unauthenticated_request_touches_nothing_witness :
  call_caller (sample_env no_fault) (create_transfer_call "Bearer stolen" 10) = None /\
  issued (execute (sample_env no_fault) (create_transfer_call "Bearer stolen" 10)
            sample_db) = [] /\
  store (execute (sample_env no_fault) (create_transfer_call "Bearer stolen" 10)
           sample_db) = sample_db /\
  status (response (execute (sample_env no_fault)
                      (create_transfer_call "Bearer stolen" 10) sample_db)) = 401%nat.
Proof.
  split; [reflexivity|].
  apply (unauthenticated_request_touches_nothing (sample_env no_fault) sample_db
           (create_transfer_call "Bearer stolen" 10)); reflexivity.
Defined.

(** C5 as stated fails: signup never looks at the Authorization header, and a
    request without one creates the profile and is answered 201; get-balance
    without a header and without query parameters is answered 400, not 401. *)
Lemma signup_does_not_authenticate :
  let c := signup_call in
  let c' := CallGetBalance (get None []) in
  call_preflight c = false /\
  call_caller (sample_env no_fault) c = None /\
  ~ (status (response (execute (sample_env no_fault) c sample_db)) = 401%nat /\
     issued (execute (sample_env no_fault) c sample_db) = []) /\
  status (response (execute (sample_env no_fault) c sample_db)) = 201%nat /\
  map ev_op (issued (execute (sample_env no_fault) c sample_db)) = [OpInsert t_profiles] /\
  map pr_id (profiles (store (execute (sample_env no_fault) c sample_db))) = ["u-carol"] /\
  call_preflight c' = false /\
  call_caller (sample_env no_fault) c' = None /\
  status (response (execute (sample_env no_fault) c' sample_db)) = 400%nat.
Proof.
  simpl. repeat split. intros [H _]. discriminate H.
Qed.

(** ** The amount guard *)

(** C8: a deposit, withdrawal or transfer request of an authenticated caller
    whose amount is zero or negative is answered 400 with the message of its
    handler, before any call to the store: the trace is empty and the store
    is unchanged. *)
Theorem non_positive_amount_is_rejected :
  forall env db c user a,
    call_preflight c = false ->
    call_caller env c = Some user ->
    requested_amount c = Some a ->
    a <= 0 ->
    execute env c db =
    {| response := mkResponse 400 (BError (amount_message c));
       issued := [];
       store := db |}.
Proof.
  intros env db c user a Hp Hc Hr Ha.
  destruct c as [r|r|r|r|r|r|r]; simpl in Hp, Hc, Hr; try discriminate;
    unfold preflight in Hp; open_handler; rewrite Hp; authenticate Hc.
  - injection Hr as <-.
    destruct (Z.leb_spec (CreateTransfer.amount (payload r)) 0); [reflexivity | lia].
  - destruct (payload r) as [b|b]; injection Hr as <-.
    + unfold Transact.handleTransaction.
      destruct (Z.leb_spec (Transact.amount b) 0); [reflexivity | lia].
    + unfold Transact.handleTransfer.
      destruct (Z.leb_spec (Transact.transfer_amount b) 0); [reflexivity | lia].
Qed.

Lemma non_positive_amount_is_rejected_witness :
  requested_amount (transaction_call "deposit" (-5)) = Some (-5) /\
  execute (sample_env no_fault) (transaction_call "deposit" (-5)) sample_db =
  {| response := mkResponse 400 (BError "Amount must be > 0");
     issued := [];
     store := sample_db |}.
Proof.
  split; [reflexivity|].
  apply (non_positive_amount_is_rejected (sample_env no_fault) sample_db
           (transaction_call "deposit" (-5)) alice (-5));
    [reflexivity | reflexivity | reflexivity | lia].
Defined.

(** ** The balance guard *)



(** ** The order of the steps of a transfer *)

Lemma filter_singleton {A} (p : A -> bool) (l : list A) (x : A) :
  filter p l = [x] -> In x l /\ p x = true.
Proof.
  intros H. apply filter_In. rewrite H. left. reflexivity.
Qed.

(** Case analysis on the next test of a handler that has been run into the
    hypothesis [H]. *)
Ltac next_case H :=
  match type of H with
  | context [fault ?e ?n] => destruct (fault e n) eqn:?
  | context [if ?b then _ else _] => destruct b eqn:?
  | context [match ?x with _ => _ end] => destruct x eqn:?
  end; simpl in H.

Ltac finish_order :=
  match goal with
  | |- prefix_of _ _ \/ _ => first
      [ left; eexists; reflexivity
      | right; reflexivity ]
  end.

Lemma create_transfer_order env db user b r w' :
  CreateTransfer.transfer env user b (init db) = (r, w') ->
  (prefix_of (ops w') transfer_steps \/ ops w' = rollback_steps) /\
  (writes w' <> [] ->
   exists src dst,
     In src (accounts db) /\ CreateTransfer.source user b src = true /\
     CreateTransfer.amount b <= acc_balance src /\
     In dst (accounts db) /\ CreateTransfer.destination b dst = true).
Proof.
  unfold CreateTransfer.transfer, bind, select_accounts, update_balance, rpc,
    insert_transfer, insert_transactions, new_Date, call, json, ret, throw, single.
  intros H. simpl in H.
  destruct (fault env 0) eqn:F0; simpl in H.
  { injection H as <- <-. split; [finish_order | intros W; now elim W]. }
  destruct (filter (CreateTransfer.source user b) (accounts db)) as [|src [|? ?]] eqn:Fs;
    simpl in H;
    try (injection H as <- <-; split; [finish_order | intros W; now elim W]).
  destruct (Z.ltb_spec (acc_balance src) (CreateTransfer.amount b)) as [Hlt|Hge];
    simpl in H.
  { injection H as <- <-. split; [finish_order | intros W; now elim W]. }
  destruct (fault env 1) eqn:F1; simpl in H.
  { injection H as <- <-. split; [finish_order | intros W; now elim W]. }
  destruct (filter (CreateTransfer.destination b) (accounts db)) as [|dst [|? ?]] eqn:Fd;
    simpl in H;
    try (injection H as <- <-; split; [finish_order | intros W; now elim W]).
  assert (G : exists src0 dst0,
     In src0 (accounts db) /\ CreateTransfer.source user b src0 = true /\
     CreateTransfer.amount b <= acc_balance src0 /\
     In dst0 (accounts db) /\ CreateTransfer.destination b dst0 = true).
  { exists src, dst.
    destruct (filter_singleton _ _ _ Fs). destruct (filter_singleton _ _ _ Fd).
    repeat split; assumption. }
  repeat next_case H;
    injection H as <- <-; (split; [finish_order | intros _; exact G]).
Qed.

Lemma handleTransfer_order env db userId b r w' :
  Transact.handleTransfer env userId b (init db) = (r, w') ->
  prefix_of (ops w') transfer_steps /\
  (writes w' <> [] ->
   0 < Transact.transfer_amount b /\
   exists src dst,
     In src (accounts db) /\
     Transact.own_active userId (Transact.from_account_number b) src = true /\
     Transact.transfer_amount b <= acc_balance src /\
     In dst (accounts db) /\
     Transact.active (Transact.to_account_number b) dst = true).
Proof.
  unfold Transact.handleTransfer, bind, select_accounts, update_balance, rpc,
    insert_transfer, insert_transactions, new_Date, call, json, ret, throw, maybeSingle.
  intros H.
  destruct (Z.leb_spec (Transact.transfer_amount b) 0) as [Hle|Hpos]; simpl in H.
  { injection H as <- <-. split; [eexists; reflexivity | intros W; now elim W]. }
  destruct (fault env 0) eqn:F0; simpl in H.
  { injection H as <- <-. split; [eexists; reflexivity | intros W; now elim W]. }
  destruct (filter (Transact.own_active userId (Transact.from_account_number b))
              (accounts db)) as [|src [|? ?]] eqn:Fs;
    simpl in H;
    try (injection H as <- <-; split; [eexists; reflexivity | intros W; now elim W]).
  destruct (Z.ltb_spec (acc_balance src) (Transact.transfer_amount b)) as [Hlt|Hge];
    simpl in H.
  { injection H as <- <-. split; [eexists; reflexivity | intros W; now elim W]. }
  destruct (fault env 1) eqn:F1; simpl in H.
  { injection H as <- <-. split; [eexists; reflexivity | intros W; now elim W]. }
  destruct (filter (Transact.active (Transact.to_account_number b)) (accounts db))
    as [|dst [|? ?]] eqn:Fd;
    simpl in H;
    try (injection H as <- <-; split; [eexists; reflexivity | intros W; now elim W]).
  destruct (filter_singleton _ _ _ Fs). destruct (filter_singleton _ _ _ Fd).
  repeat next_case H;
    injection H as <- <-;
    (split; [eexists; reflexivity
            | intros _; split; [assumption | exists src, dst; repeat split; assumption]]).
Qed.

(** C6: in every execution of a transfer, by either handler, the calls to the
    store are an initial part of the sequence: read the source account, read
    the destination account, generate the reference, update the source
    balance, update the destination balance, insert the transfer record,
    insert the transaction records (or, in create-transfer, end with the
    update that rolls the first one back).  A write is issued only when all
    guards have passed: the caller is authenticated, the amount is positive,
    the source account exists, is active, belongs to the caller and holds at
    least the amount, and the destination account exists and is active. *)
Theorem transfer_steps_in_order :
  forall env db c,
    is_transfer c = true ->
    (prefix_of (map ev_op (issued (execute env c db))) transfer_steps \/
     map ev_op (issued (execute env c db)) = rollback_steps) /\
    (written (execute env c db) <> [] -> guards_pass env db c).
Proof.
  intros env db c Ht.
  assert (Hw : forall o, written o = [] <-> filter is_write (map ev_op (issued o)) = []).
  { intros o. unfold written. induction (issued o) as [|e l IH]; simpl; [tauto|].
    destruct (is_write (ev_op e)); [split; discriminate | exact IH]. }
  rewrite Hw. clear Hw.
  destruct c as [r|r|r|r|r|r|r]; try discriminate; unfold guards_pass; simpl.
  - (* create-transfer *)
    unfold CreateTransfer.serve, Deno_serve, CreateTransfer.handler, try_catch, json, ret.
    unfold caller.
    destruct (String.eqb (method r) "OPTIONS"); simpl.
    { split; [left; eexists; reflexivity | intros W; now elim W]. }
    destruct (truthy (authorization r)) as [h|]; simpl.
    2: { split; [left; eexists; reflexivity | intros W; now elim W]. }
    destruct (getUser env (bearer h)) as [user|] eqn:Hu; simpl.
    2: { split; [left; eexists; reflexivity | intros W; now elim W]. }
    destruct (Z.leb_spec (CreateTransfer.amount (payload r)) 0) as [Hle|Hpos]; simpl.
    { split; [left; eexists; reflexivity | intros W; now elim W]. }
    destruct (CreateTransfer.transfer env user (payload r) (init db)) as [res w'] eqn:E.
    destruct (create_transfer_order _ _ _ _ _ _ E) as [Ho Hg].
    destruct res as [resp|msg]; simpl; (split; [exact Ho|]);
      intros W; destruct (Hg W) as [src [dst [? [? [? [? ?]]]]]];
      exists user, (CreateTransfer.amount (payload r)),
        (CreateTransfer.source user (payload r)),
        (CreateTransfer.destination (payload r)), src, dst;
      repeat split; assumption.
  - (* the combined handler *)
    unfold Transact.serve, Deno_serve, Transact.handler, json, ret.
    unfold is_transfer in Ht; simpl in Ht.
    destruct (payload r) as [b|b] eqn:Hb; [discriminate|].
    unfold caller.
    destruct (String.eqb (method r) "OPTIONS"); simpl.
    { split; [left; eexists; reflexivity | intros W; now elim W]. }
    destruct (truthy (authorization r)) as [h|]; simpl.
    2: { split; [left; eexists; reflexivity | intros W; now elim W]. }
    destruct (getUser env (bearer h)) as [user|] eqn:Hu; simpl.
    2: { split; [left; eexists; reflexivity | intros W; now elim W]. }
    destruct (Transact.handleTransfer env (user_id user) b (init db)) as [res w'] eqn:E.
    destruct (handleTransfer_order _ _ _ _ _ _ E) as [Ho Hg].
    destruct res as [resp|msg]; simpl; (split; [left; exact Ho|]);
      intros W; destruct (Hg W) as [Hpos [src [dst [? [? [? [? ?]]]]]]];
      exists user, (Transact.transfer_amount b),
        (Transact.own_active (user_id user) (Transact.from_account_number b)),
        (Transact.active (Transact.to_account_number b)), src, dst;
      repeat split; assumption.
Qed.

Lemma transfer_steps_in_order_witness :
  is_transfer (create_transfer_call "Bearer alice-token" 10) = true /\
  (prefix_of
     (map ev_op
        (issued (execute (sample_env (fault_at 4))
                   (create_transfer_call "Bearer alice-token" 10) sample_db)))
     transfer_steps \/
   map ev_op
     (issued (execute (sample_env (fault_at 4))
                (create_transfer_call "Bearer alice-token" 10) sample_db))
   = rollback_steps) /\
  (written (execute (sample_env (fault_at 4))
              (create_transfer_call "Bearer alice-token" 10) sample_db) <> [] ->
   guards_pass (sample_env (fault_at 4)) sample_db
     (create_transfer_call "Bearer alice-token" 10)).
Proof.
  split; [reflexivity|].
  apply (transfer_steps_in_order (sample_env (fault_at 4)) sample_db
           (create_transfer_call "Bearer alice-token" 10)).
  reflexivity.
Defined.

(** ** The records of a transfer *)

Lemma balance_after_updates (l : list Account) ida idb x y t1 t2 :
  String.eqb ida idb = false ->
  let l' :=
    map (fun a => if String.eqb (acc_id a) idb then set_balance y t2 a else a)
      (map (fun a => if String.eqb (acc_id a) ida then set_balance x t1 a else a) l) in
  (forall v, In v (map acc_balance (filter (fun a => String.eqb (acc_id a) ida) l')) -> v = x) /\
  (forall v, In v (map acc_balance (filter (fun a => String.eqb (acc_id a) idb) l')) -> v = y).
Proof.
  intros Hab. simpl. induction l as [|a l [IHa IHb]]; simpl.
  - split; intros v [].
  - destruct (String.eqb (acc_id a) ida) eqn:Ea; simpl.
    + apply String.eqb_eq in Ea. rewrite Ea, Hab. simpl.
      rewrite Ea, String.eqb_refl, Hab. simpl.
      split; [intros v [<-|Hv]; [reflexivity | apply IHa, Hv] | exact IHb].
    + destruct (String.eqb (acc_id a) idb) eqn:Eb; simpl; rewrite Ea, Eb; simpl.
      * split; [exact IHa | intros v [<-|Hv]; [reflexivity | apply IHb, Hv]].
      * split; assumption.
Qed.




(** ** Where the combined handler loses the ledger *)

(** C1 fails in [handleTransfer], which does not compare the two accounts as
    create-transfer does: a transfer of 10 from an account to itself is
    answered 201, and leaves the account with 110 instead of 100. *)
Theorem self_transfer_creates_money :
  let c := transfer_call "0000001001" "0000001001" 10 in
  let o := execute (sample_env no_fault) c sample_db in
  status (response o) = 201%nat /\
  balance_of sample_db "acc-a" = [100] /\
  balance_of (store o) "acc-a" = [110] /\
  sum_balances (accounts sample_db) = 105 /\
  sum_balances (accounts (store o)) = 115.
Proof. repeat split. Qed.

(** [handleTransfer] does not look at the errors of its updates either: when
    the store refuses the update of the source, the destination is credited
    all the same and the answer is 201. *)
Lemma refused_debit_still_credits :
  let c := transfer_call "0000001001" "0000001002" 10 in
  let o := execute (sample_env (fault_at 3)) c sample_db in
  status (response o) = 201%nat /\
  balance_of (store o) "acc-a" = [100] /\
  balance_of (store o) "acc-b" = [15].
Proof. repeat split. Qed.

(** C4 fails in [handleTransfer], which has no rollback: when the update of
    the source succeeds and the store refuses the update of the destination,
    the source stays debited, the destination is not credited, the records
    are written and the answer is 201. *)
Theorem refused_credit_is_not_rolled_back :
  let c := transfer_call "0000001001" "0000001002" 10 in
  let o := execute (sample_env (fault_at 4)) c sample_db in
  map ev_ok (issued o) = [true; true; true; true; false; true; true] /\
  status (response o) = 201%nat /\
  balance_of sample_db "acc-a" = [100] /\
  balance_of (store o) "acc-a" = [90] /\
  balance_of (store o) "acc-b" = [5] /\
  List.length (transfers (store o)) = 1%nat /\
  List.length (transactions (store o)) = 2%nat.
Proof. repeat split. Qed.

(** In create-transfer a failure after the two updates is not rolled back
    either: when the store refuses the insert of the transfer record, the
    answer is 500 and both balances stay changed. *)
Lemma refused_transfer_record_keeps_the_balances :
  let c := create_transfer_call "Bearer alice-token" 10 in
  let o := execute (sample_env (fault_at 5)) c sample_db in
  response o = mkResponse 500 (BError "connection reset") /\
  balance_of (store o) "acc-a" = [90] /\
  balance_of (store o) "acc-b" = [15] /\
  transfers (store o) = [] /\ transactions (store o) = [].
Proof. repeat split. Qed.

(** ** Statelessness *)





(** ** Sorting *)

Section Sorting.
Context {A : Type} (key : A -> option Z).


End Sorting.






(** ** Sums of balances *)




(** ** get-balance *)

#[local] Arguments GetBalance.total : simpl never.
#[local] Arguments order_desc : simpl never.



Example get_balance_of_own_account :
  response (execute (sample_env no_fault)
              (CallGetBalance
                 (get (Some "Bearer alice-token") [("account_number", "0000001001")]))
              sample_db) =
  mkResponse 200
    (BBalance None alice (GetBalance.view alice_account)
       [GetBalance.summary alice_account] 100).
Proof. reflexivity. Qed.

(** ** get-transactions *)

#[local] Arguments Array_sort : simpl never.
#[local] Arguments parseInt : simpl never.





(** Without a limit the three records of Alice's account come back, the most
    recent first. *)
Example history_without_limit :
  body (response (execute (sample_env no_fault)
                    (CallGetTransactions (history_request [])) ledger_db)) =
  BTransactions
    [ TransactionRecord "g" "transfer" 10 (Some "0000001001") 97
        (Some "Transfer to 0000001002") (Some "REF20251106000042") "completed" 1006;
      TransferRecord "f" (Some "0000001001") (Some "0000001002") 10 None
        (Some "REF20251106000042") "completed" (Some 1005);
      TransactionRecord "c" "deposit" 7 (Some "0000001001") 107
        (Some "DEPOSIT") None "completed" 1002 ].
Proof. reflexivity. Qed.

(** Outside the claim: the limit is not validated.  A negative limit counts
    from the end of the list, and a limit that is not a number cuts to
    nothing, as [slice] does. *)
Example history_with_negative_limit :
  body (response (execute (sample_env no_fault)
                    (CallGetTransactions (history_request [("limit", "-1")])) ledger_db)) =
  BTransactions
    [ TransactionRecord "g" "transfer" 10 (Some "0000001001") 97
        (Some "Transfer to 0000001002") (Some "REF20251106000042") "completed" 1006;
      TransferRecord "f" (Some "0000001001") (Some "0000001002") 10 None
        (Some "REF20251106000042") "completed" (Some 1005) ].
Proof. reflexivity. Qed.

Example history_cut_to_two :
  body (response (execute (sample_env no_fault)
                    (CallGetTransactions (history_request [("limit", "2")])) ledger_db)) =
  BTransactions
    [ TransactionRecord "g" "transfer" 10 (Some "0000001001") 97
        (Some "Transfer to 0000001002") (Some "REF20251106000042") "completed" 1006;
      TransferRecord "f" (Some "0000001001") (Some "0000001002") 10 None
        (Some "REF20251106000042") "completed" (Some 1005) ].
Proof. reflexivity. Qed.

Example history_with_unreadable_limit :
  body (response (execute (sample_env no_fault)
                    (CallGetTransactions (history_request [("limit", "all")])) ledger_db)) =
  BTransactions [].
Proof. reflexivity. Qed.

Example parseInt_examples :
  parseInt "50" = Some 50 /\ parseInt "  -12px" = Some (-12) /\
  parseInt "0x1f" = Some 31 /\ parseInt "abc" = None /\ parseInt "" = None.
Proof. repeat split. Qed.

(** ** create-transfer keeps the ledger

    The handler the combined one was derived from does what C1 and C4 ask
    for, on a store whose account identifiers are unique. *)

Section Updates.
Variables (id : string) (x now : Z).

Local Abbreviation updated l :=
  (map (fun a => if String.eqb (acc_id a) id then set_balance x now a else a) l).

Lemma updated_ids l : map acc_id (updated l) = map acc_id l.
Proof.
  induction l as [|a l IH]; simpl; [reflexivity|].
  rewrite IH. destruct (String.eqb (acc_id a) id); reflexivity.
Qed.

Lemma updated_other l id' :
  id' <> id -> balances (updated l) id' = balances l id'.
Proof.
  intros Hne. unfold balances. induction l as [|a l IH]; simpl; [reflexivity|].
  destruct (String.eqb (acc_id a) id) eqn:Ea; simpl.
  - apply String.eqb_eq in Ea. rewrite Ea.
    destruct (String.eqb id id') eqn:E; [apply String.eqb_eq in E; congruence|].
    exact IH.
  - destruct (String.eqb (acc_id a) id'); simpl; rewrite IH; reflexivity.
Qed.

Lemma updated_absent l :
  ~ In id (map acc_id l) -> updated l = l.
Proof.
  induction l as [|a l IH]; simpl; intros H; [reflexivity|].
  destruct (String.eqb (acc_id a) id) eqn:Ea.
  - apply String.eqb_eq in Ea. exfalso. apply H. left. exact Ea.
  - rewrite IH; [reflexivity|]. intros Hin. apply H. right. exact Hin.
Qed.

Lemma balances_absent l : ~ In id (map acc_id l) -> balances l id = [].
Proof.
  unfold balances. induction l as [|a l IH]; simpl; intros H; [reflexivity|].
  destruct (String.eqb (acc_id a) id) eqn:Ea.
  - apply String.eqb_eq in Ea. exfalso. apply H. left. exact Ea.
  - apply IH. intros Hin. apply H. right. exact Hin.
Qed.

Lemma balances_unique l a :
  NoDup (map acc_id l) -> In a l -> acc_id a = id -> balances l id = [acc_balance a].
Proof.
  induction l as [|b l IH]; simpl; intros Hnd Hin Hid; [contradiction|].
  apply NoDup_cons_iff in Hnd. destruct Hnd as [Hnotin Hnd'].
  unfold balances. simpl. destruct Hin as [->|Hin].
  - rewrite Hid, String.eqb_refl. simpl. f_equal.
    apply balances_absent. rewrite <- Hid. exact Hnotin.
  - destruct (String.eqb (acc_id b) id) eqn:E.
    + apply String.eqb_eq in E. exfalso. apply Hnotin. rewrite E, <- Hid.
      apply in_map. exact Hin.
    + apply IH; [exact Hnd' | exact Hin | exact Hid].
Qed.

Lemma updated_same l a :
  NoDup (map acc_id l) -> In a l -> acc_id a = id -> balances (updated l) id = [x].
Proof.
  induction l as [|b l IH]; simpl; intros Hnd Hin Hid; [contradiction|].
  apply NoDup_cons_iff in Hnd. destruct Hnd as [Hnotin Hnd'].
  unfold balances. simpl. destruct Hin as [->|Hin].
  - rewrite Hid, String.eqb_refl. simpl. rewrite Hid, String.eqb_refl. simpl. f_equal.
    rewrite Hid in Hnotin. rewrite (updated_absent l Hnotin).
    apply (balances_absent l Hnotin).
  - destruct (String.eqb (acc_id b) id) eqn:E.
    + apply String.eqb_eq in E. exfalso. apply Hnotin.
      rewrite E, <- Hid. apply in_map. exact Hin.
    + simpl. rewrite E. apply IH; [exact Hnd' | exact Hin | exact Hid].
Qed.


End Updates.


(** When the store accepts the update of the source, refuses the update of
    the destination and accepts the rollback, create-transfer answers 500
    with the error of the store and leaves every balance as it was; nothing
    is recorded. *)
Lemma create_transfer_rolls_back env db r user src dst e :
  preflight r = false ->
  caller env r = Some user ->
  0 < CreateTransfer.amount (payload r) ->
  NoDup (map acc_id (accounts db)) ->
  fault env 0 = None -> fault env 1 = None ->
  filter (CreateTransfer.source user (payload r)) (accounts db) = [src] ->
  CreateTransfer.amount (payload r) <= acc_balance src ->
  filter (CreateTransfer.destination (payload r)) (accounts db) = [dst] ->
  acc_id src <> acc_id dst ->
  fault env 3 = None -> fault env 4 = Some e -> fault env 5 = None ->
  response (execute env (CallCreateTransfer r) db) = mkResponse 500 (BError e) /\
  (forall id, balance_of (store (execute env (CallCreateTransfer r) db)) id
              = balance_of db id) /\
  transfers (store (execute env (CallCreateTransfer r) db)) = transfers db /\
  transactions (store (execute env (CallCreateTransfer r) db)) = transactions db.
Proof.
  intros Hp Hc Ha Hnd F0 F1 Fs Hb Fd Hne F3 F4 F5. unfold preflight in Hp.
  open_handler. rewrite Hp. authenticate Hc.
  destruct (Z.leb_spec (CreateTransfer.amount (payload r)) 0); [lia|].
  unfold CreateTransfer.transfer, bind, select_accounts, update_balance, rpc,
    insert_transfer, insert_transactions, new_Date, call, json, ret, throw, single.
  simpl. rewrite F0, Fs. simpl.
  destruct (Z.ltb_spec (acc_balance src) (CreateTransfer.amount (payload r))); [lia|].
  simpl. rewrite F1, Fd. simpl.
  destruct (String.eqb (acc_id src) (acc_id dst)) eqn:Eid.
  { apply String.eqb_eq in Eid. contradiction. }
  simpl.
  destruct (filter_singleton _ _ _ Fs) as [Is Ps].
  assert (Hback : forall x t1 t2 id,
    balances
      (update_where (fun a => String.eqb (acc_id a) (acc_id src)) (acc_balance src) t2
         (update_where (fun a => String.eqb (acc_id a) (acc_id src)) x t1 (accounts db)))
      id = balances (accounts db) id).
  { intros x t1 t2 id. unfold update_where.
    destruct (String.eqb id (acc_id src)) eqn:E.
    - apply String.eqb_eq in E. subst id.
      rewrite (balances_unique _ _ _ Hnd Is eq_refl).
      assert (Hex : exists a', In a' (map (fun a => if String.eqb (acc_id a) (acc_id src)
                                                    then set_balance x t1 a else a)
                                        (accounts db)) /\ acc_id a' = acc_id src).
      { exists (set_balance x t1 src). split; [|reflexivity].
        apply in_map_iff. exists src. rewrite String.eqb_refl. split; [reflexivity|exact Is]. }
      destruct Hex as [a' [Ia' Ea']].
      apply (updated_same _ _ _ _ a'); [rewrite updated_ids; exact Hnd | exact Ia' | exact Ea'].
    - assert (id <> acc_id src).
      { intros ->. rewrite String.eqb_refl in E. discriminate. }
      rewrite !updated_other by assumption. reflexivity. }
  destruct (fault env 2); simpl; rewrite F3; simpl; rewrite F4; simpl; rewrite F5; simpl;
    (split; [reflexivity|]); (split; [|split; reflexivity]);
    intros id; unfold balance_of; simpl; apply Hback.
Qed.

Example create_transfer_rollback_example :
  let o := execute (sample_env (fault_at 4))
             (create_transfer_call "Bearer alice-token" 10) sample_db in
  response o = mkResponse 500 (BError "connection reset") /\
  map ev_op (issued o) = rollback_steps /\
  balance_of (store o) "acc-a" = [100] /\ balance_of (store o) "acc-b" = [5].
Proof. repeat split. Qed.

(** * Further properties of the handlers *)

(** ** The handlers that only read *)

#[local] Arguments bearer : simpl never.

(** Case analysis on the tests a handler makes, innermost first. *)
Ltac split_cases :=
  repeat (simpl;
    match goal with
    | |- context [fault ?e ?n] => destruct (fault e n)
    | |- context [truthy ?x] => destruct (truthy x)
    | |- context [getUser ?e ?t] => destruct (getUser e t)
    | |- context [String.eqb ?a ?b] => destruct (String.eqb a b)
    | |- context [falsy ?x] => destruct (falsy x)
    | |- context [filter ?p ?l] => destruct (filter p l) as [|? [|? ?]]
    end).

(** get-balance, get-profile and get-transactions never change the store and
    never issue a write, whatever the request, the caller and the refusals
    of the store. *)
Theorem read_handlers_never_write :
  forall env db c,
    reads_only c = true ->
    store (execute env c db) = db /\ written (execute env c db) = [].
Proof.
  intros env db c Hc.
  destruct c as [r|r|r|r|r|r|r]; try discriminate; clear Hc;
    unfold written; open_handler;
    unfold bind, select_accounts, select_profiles, select_transactions, call, throw,
      maybeSingle.
  - split_cases; split; reflexivity.
  - split_cases; split; reflexivity.
  - split_cases; split; reflexivity.
Qed.

Lemma read_handlers_never_write_witness :
  store (execute (sample_env no_fault)
           (CallGetTransactions (history_request [("limit", "2")])) ledger_db)
  = ledger_db /\
  written (execute (sample_env no_fault)
             (CallGetTransactions (history_request [("limit", "2")])) ledger_db) = [].
Proof.
  apply (read_handlers_never_write (sample_env no_fault) ledger_db
           (CallGetTransactions (history_request [("limit", "2")]))).
  reflexivity.
Defined.

(** ** The stored functions *)

Lemma padding_length k fill : String.length (Migrations.padding k fill) = k.
Proof. induction k as [|k IH]; simpl; [reflexivity | rewrite IH; reflexivity]. Qed.

Lemma append_length (s1 s2 : string) :
  String.length (s1 ++ s2) = (String.length s1 + String.length s2)%nat.
Proof. induction s1 as [|c s1 IH]; simpl; [reflexivity | rewrite IH; reflexivity]. Qed.

Lemma substring_prefix_length (n : nat) (s : string) :
  (n <= String.length s)%nat -> String.length (substring 0 n s) = n.
Proof.
  revert s. induction n as [|n IH]; intros s H.
  - destruct s; reflexivity.
  - destruct s as [|c s]; simpl in *; [lia|]. rewrite IH; [reflexivity | lia].
Qed.

Lemma LPAD_length s n fill : String.length (Migrations.LPAD s n fill) = n.
Proof.
  unfold Migrations.LPAD. destruct (Nat.leb_spec n (String.length s)) as [H|H].
  - apply substring_prefix_length. exact H.
  - rewrite append_length, padding_length. lia.
Qed.

Lemma all_digits_app s1 s2 :
  all_digits s1 = true -> all_digits s2 = true -> all_digits (s1 ++ s2) = true.
Proof.
  induction s1 as [|c s1 IH]; simpl; intros H1 H2; [exact H2|].
  apply andb_true_iff in H1. destruct H1 as [Hc H1].
  rewrite Hc. simpl. apply IH; assumption.
Qed.

Lemma all_digits_substring n s :
  all_digits s = true -> all_digits (substring 0 n s) = true.
Proof.
  revert s. induction n as [|n IH]; intros s H.
  - destruct s; reflexivity.
  - destruct s as [|c s]; simpl in *; [reflexivity|].
    apply andb_true_iff in H. destruct H as [Hc H].
    rewrite Hc. simpl. apply IH. exact H.
Qed.

Lemma all_digits_padding k : all_digits (Migrations.padding k "0") = true.
Proof. induction k as [|k IH]; simpl; [reflexivity | exact IH]. Qed.

Lemma all_digits_uint d :
  all_digits (DecimalString.NilEmpty.string_of_uint d) = true.
Proof. induction d; simpl; try reflexivity; exact IHd. Qed.

Lemma all_digits_text n : all_digits (Migrations.text n) = true.
Proof.
  unfold Migrations.text, DecimalString.NilZero.string_of_uint.
  destruct (N.to_uint n) eqn:E; try reflexivity; rewrite <- E; apply all_digits_uint.
Qed.

Lemma taken_spec db n :
  Migrations.taken db n = true <-> In n (map acc_account_number (accounts db)).
Proof.
  unfold Migrations.taken. rewrite existsb_exists, in_map_iff. split.
  - intros [a [Ha E]]. apply String.eqb_eq in E. exists a. split; assumption.
  - intros [a [E Ha]]. exists a. split; [exact Ha | apply String.eqb_eq; exact E].
Qed.

Lemma generate_account_number_spec db draws i fuel n :
  Migrations.generate_account_number db draws i fuel = Some n ->
  exists k, n = Migrations.LPAD (Migrations.text (draws k)) 10 "0" /\
            Migrations.taken db n = false.
Proof.
  revert i. induction fuel as [|fuel IH]; intros i H; simpl in H; [discriminate|].
  destruct (Migrations.taken db (Migrations.LPAD (Migrations.text (draws i)) 10 "0"))
    eqn:T.
  - apply (IH _ H).
  - injection H as <-. exists i. split; [reflexivity | exact T].
Qed.

Lemma generate_account_number_not_taken db draws i fuel n :
  Migrations.generate_account_number db draws i fuel = Some n ->
  ~ In n (map acc_account_number (accounts db)).
Proof.
  intros H. destruct (generate_account_number_spec _ _ _ _ _ H) as [k [_ T]].
  intros Hin. apply taken_spec in Hin. rewrite Hin in T. discriminate.
Qed.

(** The account number the stored function returns is free: no account of
    the store has it; it is ten characters long and made of digits. *)
Theorem generated_account_number_is_free :
  forall db draws i fuel n,
    Migrations.generate_account_number db draws i fuel = Some n ->
    ~ In n (map acc_account_number (accounts db)) /\
    String.length n = 10%nat /\
    all_digits n = true.
Proof.
  intros db draws i fuel n H.
  split; [apply (generate_account_number_not_taken _ _ _ _ _ H)|].
  destruct (generate_account_number_spec _ _ _ _ _ H) as [k [-> _]].
  split; [apply LPAD_length|].
  unfold Migrations.LPAD.
  destruct (Nat.leb 10 (String.length (Migrations.text (draws k)))).
  - apply all_digits_substring, all_digits_text.
  - apply all_digits_app; [apply all_digits_padding | apply all_digits_text].
Qed.

(** The loop ends at the first draw whose number is free: when one of the
    draws the fuel allows is free, the function returns a number. *)
Theorem generate_account_number_returns :
  forall db draws fuel i k,
    (k < fuel)%nat ->
    Migrations.taken db (Migrations.LPAD (Migrations.text (draws (i + k)%nat)) 10 "0")
    = false ->
    exists n, Migrations.generate_account_number db draws i fuel = Some n.
Proof.
  intros db draws fuel. induction fuel as [|fuel IH]; intros i k Hk Hfree; [lia|].
  simpl.
  destruct (Migrations.taken db (Migrations.LPAD (Migrations.text (draws i)) 10 "0"))
    eqn:T; [|eexists; reflexivity].
  destruct k as [|k].
  - rewrite Nat.add_0_r in Hfree. rewrite Hfree in T. discriminate.
  - apply (IH (S i) k); [lia|].
    replace (S i + k)%nat with (i + S k)%nat by lia. exact Hfree.
Qed.

Lemma generated_account_number_is_free_witness :
  Migrations.generate_account_number sample_db
    (fun i => match i with O => 1001%N | _ => 1003%N end) 0 5 = Some "0000001003" /\
  ~ In "0000001003" (map acc_account_number (accounts sample_db)) /\
  String.length "0000001003" = 10%nat /\
  all_digits "0000001003" = true.
Proof.
  split; [reflexivity|].
  apply (generated_account_number_is_free sample_db
           (fun i => match i with O => 1001%N | _ => 1003%N end) 0 5).
  reflexivity.
Defined.

Lemma generate_account_number_returns_witness :
  exists n,
    Migrations.generate_account_number sample_db
      (fun i => match i with O => 1001%N | _ => 1003%N end) 0 5 = Some n.
Proof.
  apply (generate_account_number_returns sample_db
           (fun i => match i with O => 1001%N | _ => 1003%N end) 5 0 1);
    [lia | reflexivity].
Defined.

(** ** Deposits and withdrawals *)

Lemma filter_nil_iff {A} (p : A -> bool) (l : list A) :
  filter p l = [] <-> (forall a, In a l -> p a = false).
Proof.
  induction l as [|x l IH]; simpl.
  - split; [intros _ a [] | reflexivity].
  - destruct (p x) eqn:E.
    + split; [discriminate|]. intros H. rewrite (H x (or_introl eq_refl)) in E.
      discriminate.
    + rewrite IH. split.
      * intros H a [<-|Ha]; [exact E | apply H, Ha].
      * intros H a Ha. apply H. right. exact Ha.
Qed.

Section KeyedUpdates.
Variable key : Account -> string.
Hypothesis key_kept : forall b t a, key (set_balance b t a) = key a.
Variables (k : string) (x now : Z).

Local Abbreviation hit := (fun a => String.eqb (key a) k).


Lemma update_where_hit l v :
  In v (map acc_balance (filter hit (update_where hit x now l))) -> v = x.
Proof.
  unfold update_where. induction l as [|a l IH]; simpl; [intros []|].
  destruct (String.eqb (key a) k) eqn:E; simpl.
  - rewrite key_kept, E. simpl. intros [<-|H]; [reflexivity | apply IH, H].
  - rewrite E. exact IH.
Qed.



End KeyedUpdates.

Lemma number_kept b t a : acc_account_number (set_balance b t a) = acc_account_number a.
Proof. reflexivity. Qed.

Lemma id_kept b t a : acc_id (set_balance b t a) = acc_id a.
Proof. reflexivity. Qed.

Lemma unique_by_key {A} (key : A -> string) (l : list A) a b :
  NoDup (map key l) -> In a l -> In b l -> key a = key b -> a = b.
Proof.
  induction l as [|c l IH]; simpl; intros Hnd Ha Hb E; [contradiction|].
  apply NoDup_cons_iff in Hnd. destruct Hnd as [Hnotin Hnd].
  destruct Ha as [->|Ha], Hb as [->|Hb].
  - reflexivity.
  - exfalso. apply Hnotin. rewrite E. apply in_map. exact Hb.
  - exfalso. apply Hnotin. rewrite <- E. apply in_map. exact Ha.
  - apply IH; assumption.
Qed.




(** A withdrawal that is answered 201 leaves no row under its account number
    with a negative balance: the handler compares the balance with the
    amount before it writes. *)
Theorem withdrawal_leaves_no_negative_balance :
  forall env db r b,
    preflight r = false ->
    payload r = Transact.TransactionBody b ->
    Transact.type b = "withdrawal" ->
    status (response (execute env (CallTransact r) db)) = 201%nat ->
    forall v,
      In v (balances_at (accounts (store (execute env (CallTransact r) db)))
              (Transact.account_number b)) ->
      0 <= v.
Proof.
  intros env db r b Hp Hb Ht. unfold preflight in Hp.
  open_handler. rewrite Hp, Hb. unfold Transact.handleTransaction.
  destruct (truthy (authorization r)) as [h|]; simpl; [|discriminate].
  destruct (getUser env (bearer h)) as [user|]; simpl; [|discriminate].
  destruct (Z.leb_spec (Transact.amount b) 0) as [|Hpos]; [discriminate|].
  unfold bind, select_accounts, update_balance, insert_transaction, call, throw,
    maybeSingle. simpl.
  destruct (fault env 0); simpl; [discriminate|].
  destruct (filter (Transact.own_active (user_id user) (Transact.account_number b))
              (accounts db)) as [|account [|? ?]] eqn:Fa; simpl; try discriminate.
  destruct (filter_singleton _ _ _ Fa) as [Ia Pa].
  assert (En : acc_account_number account = Transact.account_number b).
  { unfold Transact.own_active in Pa.
    apply andb_true_iff in Pa. destruct Pa as [Pa _].
    apply andb_true_iff in Pa. destruct Pa as [Pa _].
    apply String.eqb_eq. exact Pa. }
  rewrite Ht. simpl.
  destruct (Z.ltb_spec (acc_balance account) (Transact.amount b)) as [|Hge]; simpl;
    [discriminate|].
  destruct (fault env 1); simpl; [discriminate|].
  destruct (fault env 2); simpl; [discriminate|].
  intros _ v Hv. unfold balances_at in Hv. rewrite En in Hv.
  apply (update_where_hit acc_account_number number_kept) in Hv.
  unfold parseFloat in Hv. lia.
Qed.

Lemma withdrawal_leaves_no_negative_balance_witness :
  status (response (execute (sample_env no_fault)
                      (CallTransact
                         (post (Some "Bearer alice-token")
                            (Transact.TransactionBody
                               (Transact.mkTransactionRequest "0000001001" "withdrawal" 100
                                  None None)))) sample_db)) = 201%nat /\
  forall v,
    In v (balances_at
            (accounts (store (execute (sample_env no_fault)
                                (transaction_call "withdrawal" 100) sample_db)))
            "0000001001") ->
    0 <= v.
Proof.
  split; [reflexivity|].
  apply (withdrawal_leaves_no_negative_balance (sample_env no_fault) sample_db
           (post (Some "Bearer alice-token")
              (Transact.TransactionBody
                 (Transact.mkTransactionRequest "0000001001" "withdrawal" 100 None None)))
           (Transact.mkTransactionRequest "0000001001" "withdrawal" 100 None None));
    reflexivity.
Defined.



(** The two writes of a deposit or withdrawal are not atomic.  When the
    store refuses the update, nothing is written; when it accepts the update
    and refuses the record, the balance stays changed and no record exists.
    Both rejections escape the handler's [catch], so the runtime answers a
    plain 500. *)
Theorem transaction_refusals :
  forall env db r b user account e,
    preflight r = false ->
    caller env r = Some user ->
    payload r = Transact.TransactionBody b ->
    0 < Transact.amount b ->
    fault env 0 = None ->
    filter (Transact.own_active (user_id user) (Transact.account_number b)) (accounts db)
    = [account] ->
    (Transact.type b = "withdrawal" -> Transact.amount b <= acc_balance account) ->
    (fault env 1 = Some e ->
     execute env (CallTransact r) db =
     {| response := mkResponse 500 BInternalServerError;
        issued := [mkEvent (OpSelect t_accounts) true; mkEvent (OpUpdate t_accounts) false];
        store := db |}) /\
    (fault env 1 = None -> fault env 2 = Some e ->
     response (execute env (CallTransact r) db) = mkResponse 500 BInternalServerError /\
     transactions (store (execute env (CallTransact r) db)) = transactions db /\
     forall v,
       In v (balances_at (accounts (store (execute env (CallTransact r) db)))
               (Transact.account_number b)) ->
       v = acc_balance account + amount_change b).
Proof.
  intros env db r b user account e Hp Hc Hb Hpos F0 Fa Hw. unfold preflight in Hp.
  open_handler. rewrite Hp. authenticate Hc. rewrite Hb.
  unfold Transact.handleTransaction.
  destruct (Z.leb_spec (Transact.amount b) 0); [lia|].
  unfold bind, select_accounts, update_balance, insert_transaction, call, throw,
    maybeSingle. simpl.
  rewrite F0, Fa. simpl.
  destruct (filter_singleton _ _ _ Fa) as [Ia Pa].
  assert (En : acc_account_number account = Transact.account_number b).
  { unfold Transact.own_active in Pa.
    apply andb_true_iff in Pa. destruct Pa as [Pa _].
    apply andb_true_iff in Pa. destruct Pa as [Pa _].
    apply String.eqb_eq. exact Pa. }
  assert (Hcheck : String.eqb (Transact.type b) "withdrawal"
                   && (acc_balance account <? Transact.amount b) = false).
  { destruct (String.eqb (Transact.type b) "withdrawal") eqn:Ew; [|reflexivity].
    apply String.eqb_eq in Ew. specialize (Hw Ew). simpl.
    apply Z.ltb_ge. exact Hw. }
  rewrite Hcheck. simpl.
  split.
  - intros F1. rewrite F1. simpl. reflexivity.
  - intros F1 F2. rewrite F1. simpl. rewrite F2. simpl.
    split; [reflexivity|]. split; [reflexivity|].
    intros v Hv. unfold balances_at in Hv. rewrite En in Hv.
    apply (update_where_hit acc_account_number number_kept) in Hv.
    unfold amount_change, parseFloat in *. exact Hv.
Qed.

Lemma transaction_refusals_witness :
  execute (sample_env (fault_at 1)) (transaction_call "deposit" 7) sample_db =
  {| response := mkResponse 500 BInternalServerError;
     issued := [mkEvent (OpSelect t_accounts) true; mkEvent (OpUpdate t_accounts) false];
     store := sample_db |}.
Proof.
  apply (transaction_refusals (sample_env (fault_at 1)) sample_db
           (post (Some "Bearer alice-token")
              (Transact.TransactionBody
                 (Transact.mkTransactionRequest "0000001001" "deposit" 7 None None)))
           (Transact.mkTransactionRequest "0000001001" "deposit" 7 None None)
           alice alice_account "connection reset");
    try reflexivity; try lia.
  simpl. discriminate.
Defined.

(** ** Lookups that find nothing *)

(** When no account of the store satisfies the query for the caller's own
    account (no such number or identifier, somebody else's account, or an
    account that is not active), a deposit, a withdrawal or a transfer is
    answered 404 and nothing is written. *)
Theorem unknown_source_is_not_found :
  forall env db c user a p,
    call_preflight c = false ->
    call_caller env c = Some user ->
    requested_amount c = Some a ->
    0 < a ->
    own_account_query c user = Some p ->
    (forall x, In x (accounts db) -> p x = false) ->
    response (execute env c db) = mkResponse 404 (BError (source_not_found c)) /\
    written (execute env c db) = [] /\
    store (execute env c db) = db.
Proof.
  intros env db c user a p Hp Hc Hr Ha Hq Hnone.
  apply filter_nil_iff in Hnone.
  destruct c as [r|r|r|r|r|r|r]; simpl in Hp, Hc, Hr, Hq; try discriminate;
    unfold preflight in Hp; open_handler; rewrite Hp; authenticate Hc.
  - injection Hr as <-. injection Hq as <-.
    destruct (Z.leb_spec (CreateTransfer.amount (payload r)) 0); [lia|].
    unfold CreateTransfer.transfer, bind, select_accounts, call, single; simpl.
    rewrite Hnone. destruct (fault env 0); repeat split.
  - simpl source_not_found.
    destruct (payload r) as [b|b]; injection Hr as <-; injection Hq as <-.
    + unfold Transact.handleTransaction.
      destruct (Z.leb_spec (Transact.amount b) 0); [lia|].
      unfold bind, select_accounts, call, maybeSingle; simpl.
      rewrite Hnone. destruct (fault env 0); repeat split.
    + unfold Transact.handleTransfer.
      destruct (Z.leb_spec (Transact.transfer_amount b) 0); [lia|].
      unfold bind, select_accounts, call, maybeSingle; simpl.
      rewrite Hnone. destruct (fault env 0); repeat split.
Qed.

Lemma unknown_source_is_not_found_witness :
  (forall x, In x (accounts sample_db) ->
             Transact.own_active (user_id alice) "0000001002" x = false) /\
  response (execute (sample_env no_fault) (transfer_call "0000001002" "0000001001" 5)
              sample_db) = mkResponse 404 (BError "Source account not found") /\
  written (execute (sample_env no_fault) (transfer_call "0000001002" "0000001001" 5)
             sample_db) = [] /\
  store (execute (sample_env no_fault) (transfer_call "0000001002" "0000001001" 5)
           sample_db) = sample_db.
Proof.
  assert (H : forall x, In x (accounts sample_db) ->
                        Transact.own_active (user_id alice) "0000001002" x = false).
  { intros x [<-|[<-|[]]]; reflexivity. }
  split; [exact H|].
  apply (unknown_source_is_not_found (sample_env no_fault) sample_db
           (transfer_call "0000001002" "0000001001" 5) alice 5
           (Transact.own_active (user_id alice) "0000001002"));
    try reflexivity; try lia; exact H.
Defined.

(** The query for the caller's own account never accepts an account of
    somebody else. *)
Lemma own_account_query_is_owned c user p x :
  own_account_query c user = Some p -> p x = true ->
  acc_user_id x = user_id user /\ acc_status x = "active".
Proof.
  assert (H : forall (k1 : bool) s1 s2 s3 s4,
             k1 && String.eqb s1 s2 && String.eqb s3 s4 = true -> s1 = s2 /\ s3 = s4).
  { intros k1 s1 s2 s3 s4 E.
    apply andb_true_iff in E. destruct E as [E E2].
    apply andb_true_iff in E. destruct E as [_ E1].
    split; apply String.eqb_eq; assumption. }
  destruct c as [r|r|r|r|r|r|r]; simpl; try discriminate.
  - intros Hq. injection Hq as <-. apply H.
  - destruct (payload r) as [b|b]; intros Hq; injection Hq as <-; apply H.
Qed.

(** When the source passes its guards and no active account has the number
    of the destination, a transfer is answered 404 and nothing is written. *)
Theorem unknown_destination_is_not_found :
  forall env db c user a psrc pdst src,
    call_preflight c = false ->
    call_caller env c = Some user ->
    requested_amount c = Some a ->
    0 < a ->
    debited c user = Some psrc ->
    credited c = Some pdst ->
    fault env 0 = None ->
    filter psrc (accounts db) = [src] ->
    a <= acc_balance src ->
    (forall x, In x (accounts db) -> pdst x = false) ->
    response (execute env c db) = mkResponse 404 (BError (destination_not_found c)) /\
    written (execute env c db) = [] /\
    store (execute env c db) = db.
Proof.
  intros env db c user a psrc pdst src Hp Hc Hr Ha Hs Hd F0 Fs Hb Hnone.
  apply filter_nil_iff in Hnone.
  destruct c as [r|r|r|r|r|r|r]; simpl in Hp, Hc, Hr, Hs, Hd; try discriminate;
    unfold preflight in Hp; open_handler; rewrite Hp; authenticate Hc.
  - injection Hr as <-. injection Hs as <-. injection Hd as <-.
    destruct (Z.leb_spec (CreateTransfer.amount (payload r)) 0); [lia|].
    unfold CreateTransfer.transfer, bind, select_accounts, call, single; simpl.
    rewrite F0, Fs. simpl.
    destruct (Z.ltb_spec (acc_balance src) (CreateTransfer.amount (payload r))); [lia|].
    simpl. rewrite Hnone. destruct (fault env 1); repeat split.
  - simpl destination_not_found.
    destruct (payload r) as [b|b]; [discriminate|].
    injection Hr as <-. injection Hs as <-. injection Hd as <-.
    unfold Transact.handleTransfer.
    destruct (Z.leb_spec (Transact.transfer_amount b) 0); [lia|].
    unfold bind, select_accounts, call, maybeSingle; simpl.
    rewrite F0, Fs. simpl.
    destruct (Z.ltb_spec (acc_balance src) (Transact.transfer_amount b)); [lia|].
    simpl. rewrite Hnone. destruct (fault env 1); repeat split.
Qed.

Lemma unknown_destination_is_not_found_witness :
  (forall x, In x (accounts sample_db) -> Transact.active "0000009999" x = false) /\
  response (execute (sample_env no_fault) (transfer_call "0000001001" "0000009999" 5)
              sample_db) = mkResponse 404 (BError "Destination not found") /\
  written (execute (sample_env no_fault) (transfer_call "0000001001" "0000009999" 5)
             sample_db) = [] /\
  store (execute (sample_env no_fault) (transfer_call "0000001001" "0000009999" 5)
           sample_db) = sample_db.
Proof.
  assert (H : forall x, In x (accounts sample_db) ->
                        Transact.active "0000009999" x = false).
  { intros x [<-|[<-|[]]]; reflexivity. }
  split; [exact H|].
  apply (unknown_destination_is_not_found (sample_env no_fault) sample_db
           (transfer_call "0000001001" "0000009999" 5) alice 5
           (Transact.own_active (user_id alice) "0000001001")
           (Transact.active "0000009999") alice_account);
    try reflexivity; try (simpl; lia); try exact H.
Defined.

(** create-transfer refuses a transfer whose destination number is that of
    the source account: 400 'Cannot transfer to the same account', after the
    two lookups and before any write. *)
Theorem create_transfer_refuses_the_same_account :
  forall env db r user src dst,
    preflight r = false ->
    caller env r = Some user ->
    0 < CreateTransfer.amount (payload r) ->
    fault env 0 = None -> fault env 1 = None ->
    filter (CreateTransfer.source user (payload r)) (accounts db) = [src] ->
    CreateTransfer.amount (payload r) <= acc_balance src ->
    filter (CreateTransfer.destination (payload r)) (accounts db) = [dst] ->
    acc_id src = acc_id dst ->
    execute env (CallCreateTransfer r) db =
    {| response := mkResponse 400 (BError "Cannot transfer to the same account");
       issued := [mkEvent (OpSelect t_accounts) true; mkEvent (OpSelect t_accounts) true];
       store := db |}.
Proof.
  intros env db r user src dst Hp Hc Ha F0 F1 Fs Hb Fd E. unfold preflight in Hp.
  open_handler. rewrite Hp. authenticate Hc.
  destruct (Z.leb_spec (CreateTransfer.amount (payload r)) 0); [lia|].
  unfold CreateTransfer.transfer, bind, select_accounts, call, single; simpl.
  rewrite F0, Fs. simpl.
  destruct (Z.ltb_spec (acc_balance src) (CreateTransfer.amount (payload r))); [lia|].
  simpl. rewrite F1, Fd. simpl. rewrite E, String.eqb_refl. reflexivity.
Qed.

Lemma create_transfer_refuses_the_same_account_witness :
  execute (sample_env no_fault)
    (CallCreateTransfer
       (post (Some "Bearer alice-token")
          (CreateTransfer.mkTransferRequest "acc-a" "0000001001" 10 None)))
    sample_db =
  {| response := mkResponse 400 (BError "Cannot transfer to the same account");
     issued := [mkEvent (OpSelect t_accounts) true; mkEvent (OpSelect t_accounts) true];
     store := sample_db |}.
Proof.
  apply (create_transfer_refuses_the_same_account (sample_env no_fault) sample_db
           (post (Some "Bearer alice-token")
              (CreateTransfer.mkTransferRequest "acc-a" "0000001001" 10 None))
           alice alice_account alice_account);
    try reflexivity; simpl; lia.
Defined.

(** ** Whose balances a request can lower *)

Lemma keeps_foreign_balances_rowwise uid (f : Account -> Account) l :
  (forall a, In a l ->
     acc_id (f a) = acc_id a /\
     acc_account_number (f a) = acc_account_number a /\
     acc_user_id (f a) = acc_user_id a /\
     acc_status (f a) = acc_status a /\
     (acc_user_id a <> uid -> acc_balance a <= acc_balance (f a))) ->
  keeps_foreign_balances uid l (map f l).
Proof.
  unfold keeps_foreign_balances. induction l as [|a l IH]; simpl; intros H.
  - constructor.
  - constructor; [apply H; left; reflexivity|].
    apply IH. intros b Hb. apply H. right. exact Hb.
Qed.

Lemma keeps_foreign_balances_refl uid l : keeps_foreign_balances uid l l.
Proof.
  rewrite <- (map_id l) at 2. apply keeps_foreign_balances_rowwise.
  intros a _. repeat split. lia.
Qed.

(** Closes a goal [keeps_foreign_balances uid l l'] where [l'] is [l] after
    some updates of balances: row by row, a row that an update by the
    source's key hits is the source, which is the caller's, and a row that
    the update of the destination hits is the destination, which gains. *)
Ltac same_row Hnd a b :=
  match goal with
  | E : String.eqb (acc_id a) (acc_id b) = true, Ha : In a _, Hb : In b _ |- _ =>
      let Eq := fresh "Eq" in
      assert (Eq : a = b)
        by (apply (unique_by_key acc_id _ a b Hnd Ha Hb); apply String.eqb_eq; exact E);
      clear E; subst a
  end.

Lemma keeps_foreign_balances_transfer uid l src dst x1 x2 t1 t2 :
  NoDup (map acc_id l) ->
  In src l -> acc_user_id src = uid ->
  In dst l -> acc_balance dst <= x2 ->
  keeps_foreign_balances uid l
    (update_where (fun a => String.eqb (acc_id a) (acc_id src)) x1 t1 l) /\
  keeps_foreign_balances uid l
    (update_where (fun a => String.eqb (acc_id a) (acc_id dst)) x2 t2 l) /\
  keeps_foreign_balances uid l
    (update_where (fun a => String.eqb (acc_id a) (acc_id dst)) x2 t2
       (update_where (fun a => String.eqb (acc_id a) (acc_id src)) x1 t1 l)) /\
  (forall x3 t3,
     keeps_foreign_balances uid l
       (update_where (fun a => String.eqb (acc_id a) (acc_id src)) x3 t3
          (update_where (fun a => String.eqb (acc_id a) (acc_id src)) x1 t1 l))).
Proof.
  intros Hnd Is Os Id Hx.
  unfold update_where. repeat split; [| | |intros x3 t3]; rewrite ?map_map;
    apply keeps_foreign_balances_rowwise; intros a Ha.
  - destruct (String.eqb (acc_id a) (acc_id src)) eqn:E; simpl.
    + same_row Hnd a src. repeat split. intros H. contradiction.
    + repeat split. lia.
  - destruct (String.eqb (acc_id a) (acc_id dst)) eqn:E; simpl.
    + same_row Hnd a dst. repeat split. intros _. exact Hx.
    + repeat split. lia.
  - destruct (String.eqb (acc_id a) (acc_id src)) eqn:E; simpl.
    + same_row Hnd a src.
      destruct (String.eqb (acc_id src) (acc_id dst)); simpl;
        repeat split; intros H; contradiction.
    + destruct (String.eqb (acc_id a) (acc_id dst)) eqn:E'; simpl.
      * same_row Hnd a dst. repeat split. intros _. exact Hx.
      * repeat split. lia.
  - destruct (String.eqb (acc_id a) (acc_id src)) eqn:E; simpl.
    + rewrite E. simpl. same_row Hnd a src. repeat split. intros H. contradiction.
    + rewrite E. repeat split. lia.
Qed.

Lemma keeps_foreign_balances_own_number uid l account x t :
  NoDup (map acc_account_number l) ->
  In account l -> acc_user_id account = uid ->
  keeps_foreign_balances uid l
    (update_where
       (fun a => String.eqb (acc_account_number a) (acc_account_number account)) x t l).
Proof.
  intros Hnd Ia Oa. unfold update_where.
  apply keeps_foreign_balances_rowwise. intros a Ha.
  destruct (String.eqb (acc_account_number a) (acc_account_number account)) eqn:E; simpl.
  - assert (Eq : a = account).
    { apply (unique_by_key acc_account_number _ a account Hnd Ha Ia).
      apply String.eqb_eq. exact E. }
    subst a. repeat split. intros H. contradiction.
  - repeat split. lia.
Qed.

(** No deposit, withdrawal or transfer lowers the balance of an account that
    is not the caller's: on a store whose account identifiers and account
    numbers are unique, whatever the request and whatever the store refuses,
    every row keeps its identity and owner, and every account of somebody
    else holds at least what it held. *)
Theorem foreign_balances_never_drop :
  forall env db c user,
    moves_money c = true ->
    call_caller env c = Some user ->
    NoDup (map acc_id (accounts db)) ->
    NoDup (map acc_account_number (accounts db)) ->
    keeps_foreign_balances (user_id user) (accounts db)
      (accounts (store (execute env c db))).
Proof.
  intros env db c user Hm Hc Hid Hnum.
  destruct c as [r|r|r|r|r|r|r]; try discriminate; simpl in Hc; open_handler.
  - (* create-transfer *)
    destruct (String.eqb (method r) "OPTIONS"); simpl;
      [apply keeps_foreign_balances_refl|].
    authenticate Hc.
    destruct (Z.leb_spec (CreateTransfer.amount (payload r)) 0) as [|Hpos]; simpl;
      [apply keeps_foreign_balances_refl|].
    unfold CreateTransfer.transfer, bind, select_accounts, update_balance, rpc,
      insert_transfer, insert_transactions, new_Date, call, json, ret, throw, single.
    simpl.
    destruct (fault env 0); simpl; [apply keeps_foreign_balances_refl|].
    destruct (filter (CreateTransfer.source user (payload r)) (accounts db))
      as [|src [|? ?]] eqn:Fs; simpl; try apply keeps_foreign_balances_refl.
    destruct (acc_balance src <? CreateTransfer.amount (payload r)); simpl;
      [apply keeps_foreign_balances_refl|].
    destruct (fault env 1); simpl; [apply keeps_foreign_balances_refl|].
    destruct (filter (CreateTransfer.destination (payload r)) (accounts db))
      as [|dst [|? ?]] eqn:Fd; simpl; try apply keeps_foreign_balances_refl.
    destruct (String.eqb (acc_id src) (acc_id dst)); simpl;
      [apply keeps_foreign_balances_refl|].
    destruct (filter_singleton _ _ _ Fs) as [Is Ps].
    destruct (filter_singleton _ _ _ Fd) as [Id _].
    assert (Os : acc_user_id src = user_id user).
    { apply (own_account_query_is_owned (CallCreateTransfer r) user _ src eq_refl Ps). }
    destruct (keeps_foreign_balances_transfer (user_id user) (accounts db) src dst
                (parseFloat (acc_balance src) - CreateTransfer.amount (payload r))
                (parseFloat (acc_balance dst) + CreateTransfer.amount (payload r))
                (clock env 3) (clock env 4) Hid Is Os Id)
      as [K1 [_ [K12 Kback]]]; [unfold parseFloat; lia|].
    destruct (fault env 2); simpl;
      (destruct (fault env 3); simpl; [apply keeps_foreign_balances_refl|]);
      (destruct (fault env 4); simpl;
       [destruct (fault env 5); simpl; [exact K1 | apply Kback]|]);
      (destruct (fault env 5); simpl; [exact K12|]);
      destruct (fault env 6); simpl; exact K12.
  - (* the combined handler *)
    destruct (String.eqb (method r) "OPTIONS"); simpl;
      [apply keeps_foreign_balances_refl|].
    authenticate Hc.
    destruct (payload r) as [b|b].
    + unfold Transact.handleTransaction.
      destruct (Z.leb_spec (Transact.amount b) 0) as [|Hpos]; simpl;
        [apply keeps_foreign_balances_refl|].
      unfold bind, select_accounts, update_balance, insert_transaction, call, throw,
        json, ret, maybeSingle. simpl.
      destruct (fault env 0); simpl; [apply keeps_foreign_balances_refl|].
      destruct (filter (Transact.own_active (user_id user) (Transact.account_number b))
                  (accounts db)) as [|account [|? ?]] eqn:Fa; simpl;
        try apply keeps_foreign_balances_refl.
      destruct (filter_singleton _ _ _ Fa) as [Ia Pa].
      assert (Oa : acc_user_id account = user_id user).
      { apply (own_account_query_is_owned
                 (CallTransact (mkRequest "" None [] (Transact.TransactionBody b)))
                 user _ account eq_refl Pa). }
      destruct (String.eqb (Transact.type b) "withdrawal"
                && (acc_balance account <? Transact.amount b)); simpl;
        [apply keeps_foreign_balances_refl|].
      destruct (fault env 1); simpl; [apply keeps_foreign_balances_refl|].
      destruct (fault env 2); simpl;
        apply (keeps_foreign_balances_own_number _ _ _ _ _ Hnum Ia Oa).
    + unfold Transact.handleTransfer.
      destruct (Z.leb_spec (Transact.transfer_amount b) 0) as [|Hpos]; simpl;
        [apply keeps_foreign_balances_refl|].
      unfold bind, select_accounts, update_balance, rpc, insert_transfer,
        insert_transactions, new_Date, call, json, ret, throw, maybeSingle.
      simpl.
      destruct (fault env 0); simpl; [apply keeps_foreign_balances_refl|].
      destruct (filter (Transact.own_active (user_id user) (Transact.from_account_number b))
                  (accounts db)) as [|src [|? ?]] eqn:Fs; simpl;
        try apply keeps_foreign_balances_refl.
      destruct (acc_balance src <? Transact.transfer_amount b); simpl;
        [apply keeps_foreign_balances_refl|].
      destruct (fault env 1); simpl; [apply keeps_foreign_balances_refl|].
      destruct (filter (Transact.active (Transact.to_account_number b)) (accounts db))
        as [|dst [|? ?]] eqn:Fd; simpl; try apply keeps_foreign_balances_refl.
      destruct (filter_singleton _ _ _ Fs) as [Is Ps].
      destruct (filter_singleton _ _ _ Fd) as [Id _].
      assert (Os : acc_user_id src = user_id user).
      { apply (own_account_query_is_owned
                 (CallTransact (mkRequest "" None [] (Transact.TransferBody b)))
                 user _ src eq_refl Ps). }
      destruct (keeps_foreign_balances_transfer (user_id user) (accounts db) src dst
                  (parseFloat (acc_balance src) - Transact.transfer_amount b)
                  (parseFloat (acc_balance dst) + Transact.transfer_amount b)
                  (clock env 3) (clock env 4) Hid Is Os Id)
        as [K1 [K2 [K12 _]]]; [unfold parseFloat; lia|].
      destruct (fault env 2); simpl; destruct (fault env 3); simpl;
        destruct (fault env 4); simpl; destruct (fault env 5); simpl;
        destruct (fault env 6); simpl;
        first [exact K12 | exact K1 | exact K2 | apply keeps_foreign_balances_refl].
Qed.

Lemma foreign_balances_never_drop_witness :
  keeps_foreign_balances (user_id alice) (accounts sample_db)
    (accounts (store (execute (sample_env (fault_at 4))
                        (transfer_call "0000001001" "0000001002" 10) sample_db))).
Proof.
  apply (foreign_balances_never_drop (sample_env (fault_at 4)) sample_db
           (transfer_call "0000001001" "0000001002" 10) alice);
    try reflexivity;
    simpl; repeat constructor; simpl; intuition discriminate.
Defined.

(** ** The transfer record *)

(** A transfer that runs to its end, and whose insert into [transfers] the
    store accepts, appends exactly one transfer record: from the source to
    the destination account, of the requested amount, completed at the time
    of the insert, with the reference number of the answer; the answer
    carries this record. *)
Theorem transfer_is_recorded :
  forall env db c user a,
    is_transfer c = true ->
    call_preflight c = false ->
    call_caller env c = Some user ->
    requested_amount c = Some a ->
    status (response (execute env c db)) = success_status c ->
    fault env 5 = None ->
    exists src dst t ref psrc pdst,
      debited c user = Some psrc /\ credited c = Some pdst /\
      In src (accounts db) /\ psrc src = true /\
      In dst (accounts db) /\ pdst dst = true /\
      transfers (store (execute env c db)) = (transfers db ++ [t])%list /\
      tr_from_account_id t = acc_id src /\
      tr_to_account_id t = acc_id dst /\
      tr_amount t = a /\
      tr_status t = "completed" /\
      tr_completed_at t = Some (clock env 5) /\
      tr_reference_number t = ref /\
      body (response (execute env c db)) = BTransfer (Some t) ref.
Proof.
  intros env db c user a Ht Hp Hc Hr Hs F5.
  destruct c as [r|r|r|r|r|r|r]; try discriminate; simpl in Hp, Hc, Hr;
    unfold preflight in Hp; revert Hs; open_handler; rewrite Hp; authenticate Hc.
  - injection Hr as <-.
    destruct (Z.leb_spec (CreateTransfer.amount (payload r)) 0); [discriminate|].
    unfold CreateTransfer.transfer, bind, select_accounts, update_balance, rpc,
      insert_transfer, insert_transactions, new_Date, call, json, ret, throw, single.
    simpl.
    destruct (fault env 0); simpl; [discriminate|].
    destruct (filter (CreateTransfer.source user (payload r)) (accounts db))
      as [|src [|? ?]] eqn:Fs; simpl; try discriminate.
    destruct (acc_balance src <? CreateTransfer.amount (payload r)); simpl; [discriminate|].
    destruct (fault env 1); simpl; [discriminate|].
    destruct (filter (CreateTransfer.destination (payload r)) (accounts db))
      as [|dst [|? ?]] eqn:Fd; simpl; try discriminate.
    destruct (String.eqb (acc_id src) (acc_id dst)); simpl; [discriminate|].
    destruct (filter_singleton _ _ _ Fs) as [Is Ps].
    destruct (filter_singleton _ _ _ Fd) as [Id Pd].
    destruct (fault env 2); simpl;
      (destruct (fault env 3); simpl; [discriminate|]);
      (destruct (fault env 4); simpl; [destruct (fault env 5); discriminate|]);
      rewrite F5; simpl; destruct (fault env 6); simpl; intros _;
      exists src, dst; eexists (mkTransfer _ _ _ _ _ _ _ _); do 3 eexists;
      (split; [reflexivity|]); (split; [reflexivity|]);
      repeat (split; [first [exact Is | exact Ps | exact Id | exact Pd | reflexivity]|]);
      reflexivity.
  - unfold is_transfer in Ht; simpl in Ht. unfold debited, credited.
    destruct (payload r) as [b|b]; [discriminate|]. injection Hr as <-.
    unfold Transact.handleTransfer, bind, select_accounts, update_balance, rpc,
      insert_transfer, insert_transactions, new_Date, call, json, ret, throw, maybeSingle.
    destruct (Z.leb_spec (Transact.transfer_amount b) 0); [discriminate|].
    simpl.
    destruct (fault env 0); simpl; [discriminate|].
    destruct (filter (Transact.own_active (user_id user) (Transact.from_account_number b))
                (accounts db)) as [|src [|? ?]] eqn:Fs; simpl; try discriminate.
    destruct (acc_balance src <? Transact.transfer_amount b); simpl; [discriminate|].
    destruct (fault env 1); simpl; [discriminate|].
    destruct (filter (Transact.active (Transact.to_account_number b)) (accounts db))
      as [|dst [|? ?]] eqn:Fd; simpl; try discriminate.
    destruct (filter_singleton _ _ _ Fs) as [Is Ps].
    destruct (filter_singleton _ _ _ Fd) as [Id Pd].
    destruct (fault env 2); simpl; destruct (fault env 3); simpl;
      destruct (fault env 4); simpl; rewrite F5; simpl;
      destruct (fault env 6); simpl; intros _;
      exists src, dst; eexists (mkTransfer _ _ _ _ _ _ _ _); do 3 eexists;
      (split; [reflexivity|]); (split; [reflexivity|]);
      repeat (split; [first [exact Is | exact Ps | exact Id | exact Pd | reflexivity]|]);
      reflexivity.
Qed.

Lemma transfer_is_recorded_witness :
  status (response (execute (sample_env no_fault)
                      (create_transfer_call "Bearer alice-token" 10) sample_db))
  = 200%nat /\
  exists src dst t ref psrc pdst,
    debited (create_transfer_call "Bearer alice-token" 10) alice = Some psrc /\
    credited (create_transfer_call "Bearer alice-token" 10) = Some pdst /\
    In src (accounts sample_db) /\ psrc src = true /\
    In dst (accounts sample_db) /\ pdst dst = true /\
    transfers (store (execute (sample_env no_fault)
                        (create_transfer_call "Bearer alice-token" 10) sample_db))
    = (transfers sample_db ++ [t])%list /\
    tr_from_account_id t = acc_id src /\
    tr_to_account_id t = acc_id dst /\
    tr_amount t = 10 /\
    tr_status t = "completed" /\
    tr_completed_at t = Some (clock (sample_env no_fault) 5) /\
    tr_reference_number t = ref /\
    body (response (execute (sample_env no_fault)
                      (create_transfer_call "Bearer alice-token" 10) sample_db))
    = BTransfer (Some t) ref.
Proof.
  split; [reflexivity|].
  apply (transfer_is_recorded (sample_env no_fault) sample_db
           (create_transfer_call "Bearer alice-token" 10) alice 10); reflexivity.
Defined.

(** Once the guards of [handleTransfer] have passed, the handler looks at no
    result any more: it issues all its calls and answers 201 whatever the
    store refuses among the reference number, the two updates and the two
    inserts; the answer carries no transfer when the insert was refused. *)
Theorem handleTransfer_reports_success_regardless :
  forall env db r b user src dst,
    preflight r = false ->
    caller env r = Some user ->
    payload r = Transact.TransferBody b ->
    0 < Transact.transfer_amount b ->
    fault env 0 = None -> fault env 1 = None ->
    filter (Transact.own_active (user_id user) (Transact.from_account_number b))
      (accounts db) = [src] ->
    Transact.transfer_amount b <= acc_balance src ->
    filter (Transact.active (Transact.to_account_number b)) (accounts db) = [dst] ->
    status (response (execute env (CallTransact r) db)) = 201%nat /\
    map ev_op (issued (execute env (CallTransact r) db)) = transfer_steps /\
    (forall e, fault env 5 = Some e ->
       transfers (store (execute env (CallTransact r) db)) = transfers db /\
       exists ref, body (response (execute env (CallTransact r) db)) = BTransfer None ref) /\
    (forall e, fault env 6 = Some e ->
       transactions (store (execute env (CallTransact r) db)) = transactions db).
Proof.
  intros env db r b user src dst Hp Hc Hb Hpos F0 F1 Fs Hbal Fd. unfold preflight in Hp.
  open_handler. rewrite Hp. authenticate Hc. rewrite Hb.
  unfold Transact.handleTransfer, bind, select_accounts, update_balance, rpc,
    insert_transfer, insert_transactions, new_Date, call, json, ret, throw, maybeSingle.
  destruct (Z.leb_spec (Transact.transfer_amount b) 0); [lia|].
  simpl. rewrite F0, Fs. simpl.
  destruct (Z.ltb_spec (acc_balance src) (Transact.transfer_amount b)); [lia|].
  simpl. rewrite F1, Fd. simpl.
  destruct (fault env 2); simpl; destruct (fault env 3); simpl;
    destruct (fault env 4); simpl; destruct (fault env 5); simpl;
    destruct (fault env 6); simpl;
    (split; [reflexivity|]); (split; [reflexivity|]);
    (split; intros e E; try discriminate E);
    try (split; [reflexivity | eexists; reflexivity]); reflexivity.
Qed.

Lemma handleTransfer_reports_success_regardless_witness :
  status (response (execute (sample_env (fault_at 5))
                      (transfer_call "0000001001" "0000001002" 10) sample_db))
  = 201%nat /\
  map ev_op (issued (execute (sample_env (fault_at 5))
                       (transfer_call "0000001001" "0000001002" 10) sample_db))
  = transfer_steps /\
  (forall e, fault (sample_env (fault_at 5)) 5 = Some e ->
     transfers (store (execute (sample_env (fault_at 5))
                         (transfer_call "0000001001" "0000001002" 10) sample_db))
     = transfers sample_db /\
     exists ref,
       body (response (execute (sample_env (fault_at 5))
                         (transfer_call "0000001001" "0000001002" 10) sample_db))
       = BTransfer None ref) /\
  (forall e, fault (sample_env (fault_at 5)) 6 = Some e ->
     transactions (store (execute (sample_env (fault_at 5))
                            (transfer_call "0000001001" "0000001002" 10) sample_db))
     = transactions sample_db).
Proof.
  apply (handleTransfer_reports_success_regardless (sample_env (fault_at 5)) sample_db
           (post (Some "Bearer alice-token")
              (Transact.TransferBody
                 (Transact.mkTransferRequest "0000001001" "0000001002" 10 None)))
           (Transact.mkTransferRequest "0000001001" "0000001002" 10 None)
           alice alice_account bob_account); try reflexivity; simpl; lia.
Defined.

(** ** The trigger on new users *)




(** ** create-account *)

(** A create-account request that is answered 201 has appended exactly one
    account: the caller's, of the requested and valid type, with the number
    the store generated, in BHD, active, holding the initial deposit (0 when
    the body has none); the accounts that existed are untouched.  A positive
    deposit is logged as one transaction record when the store accepts the
    insert; a deposit of zero or less is not logged. *)
Theorem account_is_created_for_the_caller :
  forall env db r,
    preflight r = false ->
    status (response (execute env (CallCreateAccount r) db)) = 201%nat ->
    exists user account,
      caller env r = Some user /\
      CreateAccount.valid_type (CreateAccount.account_type (payload r)) = true /\
      accounts (store (execute env (CallCreateAccount r) db))
      = (accounts db ++ [account])%list /\
      acc_user_id account = user_id user /\
      acc_account_number account = generate_account_number env 0 /\
      acc_account_type account = CreateAccount.account_type (payload r) /\
      acc_balance account
      = match CreateAccount.initial_deposit (payload r) with Some d => d | None => 0 end /\
      acc_currency account = "BHD" /\
      acc_status account = "active" /\
      body (response (execute env (CallCreateAccount r) db)) = BAccount (Some account) /\
      (acc_balance account <= 0 ->
       transactions (store (execute env (CallCreateAccount r) db)) = transactions db) /\
      (0 < acc_balance account -> fault env 3 = None ->
       exists t,
         transactions (store (execute env (CallCreateAccount r) db))
         = (transactions db ++ [t])%list /\
         tx_account_id t = Some (acc_id account) /\
         tx_type t = "deposit" /\
         tx_amount t = acc_balance account /\
         tx_balance_after t = acc_balance account).
Proof.
  intros env db r Hp. unfold preflight in Hp.
  open_handler. rewrite Hp. unfold caller.
  destruct (truthy (authorization r)) as [h|]; simpl; [|discriminate].
  destruct (getUser env (bearer h)) as [user|]; simpl; [|discriminate].
  destruct (CreateAccount.valid_type (CreateAccount.account_type (payload r))) eqn:V;
    simpl; [|discriminate].
  unfold bind, rpc, insert_account, insert_transactions, call, throw, ret, single. simpl.
  destruct (fault env 0); simpl; [discriminate|].
  destruct (fault env 1); simpl; [discriminate|].
  destruct (Z.ltb_spec 0 (match CreateAccount.initial_deposit (payload r) with
                          | Some d => d | None => 0 end)) as [Hpos|Hle]; simpl.
  - destruct (fault env 2); simpl; destruct (fault env 3) eqn:F3; simpl; intros _;
      exists user; eexists (mkAccount _ _ _ _ _ _ _ _ _);
      do 10 (split; [reflexivity|]); simpl;
      (split; [intros; lia|]); intros _ F; try discriminate F;
      eexists (mkTransaction _ _ _ _ _ _ _ _ _ _); repeat split.
  - intros _. exists user; eexists (mkAccount _ _ _ _ _ _ _ _ _).
    do 10 (split; [reflexivity|]); simpl.
    split; [reflexivity | intros; lia].
Qed.

Lemma account_is_created_for_the_caller_witness :
  status (response (execute (sample_env no_fault)
                      (CallCreateAccount
                         (post (Some "Bearer alice-token")
                            (CreateAccount.mkCreateAccountRequest "Savings" (Some 25))))
                      sample_db)) = 201%nat /\
  map acc_balance
    (accounts (store (execute (sample_env no_fault)
                        (CallCreateAccount
                           (post (Some "Bearer alice-token")
                              (CreateAccount.mkCreateAccountRequest "Savings" (Some 25))))
                        sample_db))) = [100; 5; 25] /\
  exists user account,
    caller (sample_env no_fault)
      (post (Some "Bearer alice-token")
         (CreateAccount.mkCreateAccountRequest "Savings" (Some 25))) = Some user /\
    CreateAccount.valid_type "Savings" = true /\
    accounts (store (execute (sample_env no_fault)
                       (CallCreateAccount
                          (post (Some "Bearer alice-token")
                             (CreateAccount.mkCreateAccountRequest "Savings" (Some 25))))
                       sample_db))
    = (accounts sample_db ++ [account])%list /\
    acc_user_id account = user_id user /\
    acc_account_number account = generate_account_number (sample_env no_fault) 0 /\
    acc_account_type account = "Savings" /\
    acc_balance account = 25 /\
    acc_currency account = "BHD" /\
    acc_status account = "active" /\
    body (response (execute (sample_env no_fault)
                      (CallCreateAccount
                         (post (Some "Bearer alice-token")
                            (CreateAccount.mkCreateAccountRequest "Savings" (Some 25))))
                      sample_db)) = BAccount (Some account) /\
    (acc_balance account <= 0 ->
     transactions (store (execute (sample_env no_fault)
                            (CallCreateAccount
                               (post (Some "Bearer alice-token")
                                  (CreateAccount.mkCreateAccountRequest "Savings"
                                     (Some 25))))
                            sample_db)) = transactions sample_db) /\
    (0 < acc_balance account -> fault (sample_env no_fault) 3 = None ->
     exists t,
       transactions (store (execute (sample_env no_fault)
                              (CallCreateAccount
                                 (post (Some "Bearer alice-token")
                                    (CreateAccount.mkCreateAccountRequest "Savings"
                                       (Some 25))))
                              sample_db))
       = (transactions sample_db ++ [t])%list /\
       tx_account_id t = Some (acc_id account) /\
       tx_type t = "deposit" /\
       tx_amount t = acc_balance account /\
       tx_balance_after t = acc_balance account).
Proof.
  split; [reflexivity|]. split; [reflexivity|].
  apply (account_is_created_for_the_caller (sample_env no_fault) sample_db
           (post (Some "Bearer alice-token")
              (CreateAccount.mkCreateAccountRequest "Savings" (Some 25))));
    reflexivity.
Defined.

(** create-account changes the store only when it answers 201: a request
    that is refused (preflight, no caller, unknown account type, a number or
    an insert the store refuses) leaves every table as it was. *)
Theorem refused_account_creation_writes_nothing :
  forall env db r,
    status (response (execute env (CallCreateAccount r) db)) <> 201%nat ->
    store (execute env (CallCreateAccount r) db) = db.
Proof.
  intros env db r. open_handler.
  unfold bind, rpc, insert_account, insert_transactions, call, throw, ret, single.
  destruct (String.eqb (method r) "OPTIONS"); simpl; [reflexivity|].
  destruct (truthy (authorization r)) as [h|]; simpl; [|reflexivity].
  destruct (getUser env (bearer h)) as [user|]; simpl; [|reflexivity].
  destruct (CreateAccount.valid_type (CreateAccount.account_type (payload r)));
    simpl; [|reflexivity].
  destruct (fault env 0); simpl; [reflexivity|].
  destruct (fault env 1); simpl; [reflexivity|].
  destruct (0 <? _); simpl.
  - destruct (fault env 2); simpl; destruct (fault env 3); simpl;
      intros H; exfalso; apply H; reflexivity.
  - intros H; exfalso; apply H; reflexivity.
Qed.

Lemma refused_account_creation_writes_nothing_witness :
  response (execute (sample_env no_fault)
              (CallCreateAccount
                 (post (Some "Bearer alice-token")
                    (CreateAccount.mkCreateAccountRequest "Premium" None)))
              sample_db) = mkResponse 400 (BError "Invalid account type") /\
  store (execute (sample_env no_fault)
           (CallCreateAccount
              (post (Some "Bearer alice-token")
                 (CreateAccount.mkCreateAccountRequest "Premium" None)))
           sample_db) = sample_db.
Proof.
  split; [reflexivity|].
  apply (refused_account_creation_writes_nothing (sample_env no_fault) sample_db
           (post (Some "Bearer alice-token")
              (CreateAccount.mkCreateAccountRequest "Premium" None))).
  simpl. discriminate.
Defined.

(** create-account keeps the account numbers unique when the number it gets
    is the one [generate_account_number()] computes on the store the request
    finds. *)
Theorem create_account_keeps_numbers_unique :
  forall env db r draws fuel,
    NoDup (map acc_account_number (accounts db)) ->
    Migrations.generate_account_number db draws 0 fuel
    = Some (generate_account_number env 0) ->
    NoDup (map acc_account_number (accounts (store (execute env (CallCreateAccount r) db)))).
Proof.
  intros env db r draws fuel Hnd Hgen.
  assert (Hfree := generate_account_number_not_taken _ _ _ _ _ Hgen).
  open_handler.
  unfold bind, rpc, insert_account, insert_transactions, call, throw, ret, single.
  destruct (String.eqb (method r) "OPTIONS"); simpl; [exact Hnd|].
  destruct (truthy (authorization r)) as [h|]; simpl; [|exact Hnd].
  destruct (getUser env (bearer h)) as [user|]; simpl; [|exact Hnd].
  destruct (CreateAccount.valid_type (CreateAccount.account_type (payload r)));
    simpl; [|exact Hnd].
  destruct (fault env 0); simpl; [exact Hnd|].
  destruct (fault env 1); simpl; [exact Hnd|].
  assert (Hnew : NoDup (map acc_account_number (accounts db)
                        ++ [generate_account_number env 0])).
  { apply NoDup_app; [exact Hnd | repeat constructor; intros [] |].
    intros n Hn [<-|[]]. apply Hfree, Hn. }
  destruct (0 <? _); simpl.
  - destruct (fault env 2); simpl; destruct (fault env 3); simpl;
      rewrite map_app; exact Hnew.
  - rewrite map_app; exact Hnew.
Qed.

Lemma create_account_keeps_numbers_unique_witness :
  Migrations.generate_account_number sample_db
    (fun i => match i with O => 1001%N | _ => 1003%N end) 0 5
  = Some (generate_account_number (sample_env no_fault) 0) /\
  NoDup (map acc_account_number
           (accounts (store (execute (sample_env no_fault)
                               (CallCreateAccount
                                  (post (Some "Bearer alice-token")
                                     (CreateAccount.mkCreateAccountRequest "Savings"
                                        (Some 25))))
                               sample_db)))).
Proof.
  split; [reflexivity|].
  apply (create_account_keeps_numbers_unique (sample_env no_fault) sample_db
           (post (Some "Bearer alice-token")
              (CreateAccount.mkCreateAccountRequest "Savings" (Some 25)))
           (fun i => match i with O => 1001%N | _ => 1003%N end) 5);
    [|reflexivity].
  simpl. repeat constructor; simpl; intuition discriminate.
Defined.

(** ** signup *)





(** ** get-profile *)



(** ** Accounts of somebody else, and lookups that are not unique *)

(** get-transactions does not read the records of an account the caller does
    not own: when no account with the requested number belongs to the
    caller, the answer is 404 after the one lookup in [accounts], and the
    tables of transactions and transfers are not read. *)
Theorem foreign_history_is_not_read :
  forall env db r user n,
    preflight r = false ->
    caller env r = Some user ->
    truthy (searchParams_get (query r) "account_number") = Some n ->
    (forall a, In a (accounts db) -> acc_account_number a = n ->
               acc_user_id a <> user_id user) ->
    response (execute env (CallGetTransactions r) db)
    = mkResponse 404 (BError "Account not found or unauthorized") /\
    map ev_op (issued (execute env (CallGetTransactions r) db)) = [OpSelect t_accounts].
Proof.
  intros env db r user n Hp Hc Hn Hforeign. unfold preflight in Hp.
  open_handler. rewrite Hp. authenticate Hc. rewrite Hn.
  unfold bind, select_accounts, call, maybeSingle. simpl.
  assert (Hnone : filter (GetTransactions.owned user n) (accounts db) = []).
  { apply filter_nil_iff. intros a Ha. unfold GetTransactions.owned.
    destruct (String.eqb (acc_account_number a) n) eqn:E1; [|reflexivity].
    destruct (String.eqb (acc_user_id a) (user_id user)) eqn:E2; [|reflexivity].
    apply String.eqb_eq in E1, E2. exfalso. apply (Hforeign a Ha E1 E2). }
  rewrite Hnone. destruct (fault env 0); split; reflexivity.
Qed.

Lemma foreign_history_is_not_read_witness :
  response (execute (sample_env no_fault)
              (CallGetTransactions
                 (get (Some "Bearer bob-token") [("account_number", "0000001001")]))
              ledger_db)
  = mkResponse 404 (BError "Account not found or unauthorized") /\
  map ev_op (issued (execute (sample_env no_fault)
                       (CallGetTransactions
                          (get (Some "Bearer bob-token")
                             [("account_number", "0000001001")]))
                       ledger_db)) = [OpSelect t_accounts].
Proof.
  apply (foreign_history_is_not_read (sample_env no_fault) ledger_db
           (get (Some "Bearer bob-token") [("account_number", "0000001001")])
           bob "0000001001"); try reflexivity.
  intros a [<-|[<-|[]]]; simpl; intros E; discriminate.
Defined.

(** get-balance by [user_id] works for a user with one account only: when
    the query has no account number and the user of [user_id] has two
    accounts or more, the lookup is not unique and the answer is 500 with
    the error of the store, also for the owner. *)
Theorem balance_by_user_needs_a_single_account :
  forall env db r user u a1 a2 rest,
    preflight r = false ->
    caller env r = Some user ->
    truthy (searchParams_get (query r) "account_number") = None ->
    truthy (searchParams_get (query r) "user_id") = Some u ->
    fault env 0 = None ->
    filter (GetBalance.belongs_to u) (accounts db) = a1 :: a2 :: rest ->
    execute env (CallGetBalance r) db =
    {| response := mkResponse 500 (BError cardinality_error);
       issued := [mkEvent (OpSelect t_accounts) false];
       store := db |}.
Proof.
  intros env db r user u a1 a2 rest Hp Hc Hn Hu F0 Fa. unfold preflight in Hp.
  open_handler. rewrite Hp.
  assert (Hf : falsy (searchParams_get (query r) "account_number")
               && falsy (searchParams_get (query r) "user_id") = false).
  { unfold truthy in Hu.
    destruct (falsy (searchParams_get (query r) "user_id")); [discriminate|].
    apply andb_false_r. }
  rewrite Hf. authenticate Hc.
  unfold bind, select_accounts, call, throw, maybeSingle. simpl. rewrite F0.
  assert (Hl : filter (GetBalance.located (searchParams_get (query r) "account_number")
                         (searchParams_get (query r) "user_id")) (accounts db)
               = a1 :: a2 :: rest).
  { rewrite <- Fa. apply filter_ext. intros a.
    unfold GetBalance.located. rewrite Hn, Hu. reflexivity. }
  rewrite Hl. reflexivity.
Qed.

Lemma balance_by_user_needs_a_single_account_witness :
  execute (sample_env no_fault)
    (CallGetBalance (get (Some "Bearer alice-token") [("user_id", "u-alice")]))
    (with_accounts sample_db
       (accounts sample_db
        ++ [mkAccount "acc-c" "u-alice" "0000001003" "Savings" 0 "BHD" "active" 30 30]))
  = {| response := mkResponse 500 (BError cardinality_error);
       issued := [mkEvent (OpSelect t_accounts) false];
       store := with_accounts sample_db
                  (accounts sample_db
                   ++ [mkAccount "acc-c" "u-alice" "0000001003" "Savings" 0 "BHD"
                         "active" 30 30]) |}.
Proof.
  apply (balance_by_user_needs_a_single_account (sample_env no_fault)
           (with_accounts sample_db
              (accounts sample_db
               ++ [mkAccount "acc-c" "u-alice" "0000001003" "Savings" 0 "BHD" "active"
                     30 30]))
           (get (Some "Bearer alice-token") [("user_id", "u-alice")])
           alice "u-alice" alice_account
           (mkAccount "acc-c" "u-alice" "0000001003" "Savings" 0 "BHD" "active" 30 30)
           []); reflexivity.
Defined.

(** ** A deposit followed by a withdrawal *)






(** ** create-transfer and the combined handler when nothing goes wrong, and
    when the late inserts are refused *)


Lemma create_transfer_rolls_back_witness :
  response (execute (sample_env (fault_at 4))
              (create_transfer_call "Bearer alice-token" 10) sample_db)
  = mkResponse 500 (BError "connection reset") /\
  (forall id,
     balance_of (store (execute (sample_env (fault_at 4))
                          (create_transfer_call "Bearer alice-token" 10) sample_db)) id
     = balance_of sample_db id) /\
  transfers (store (execute (sample_env (fault_at 4))
                      (create_transfer_call "Bearer alice-token" 10) sample_db))
  = transfers sample_db /\
  transactions (store (execute (sample_env (fault_at 4))
                         (create_transfer_call "Bearer alice-token" 10) sample_db))
  = transactions sample_db.
Proof.
  apply (create_transfer_rolls_back (sample_env (fault_at 4)) sample_db
           (post (Some "Bearer alice-token")
              (CreateTransfer.mkTransferRequest "acc-a" "0000001002" 10 None))
           alice alice_account bob_account "connection reset");
    try reflexivity; try (simpl; lia); try (simpl; discriminate).
  simpl. repeat constructor; simpl; intuition discriminate.
Defined.

(** create-transfer has no rollback for a failure after the two updates.
    When the store refuses the insert of the transfer record, the answer is
    500 with the error of the store, both balances stay moved and nothing is
    recorded; when it refuses the insert of the transaction records, which
    the handler does not check, the answer is 200 with the transfer record
    and no transaction record exists. *)
Theorem create_transfer_late_refusals :
  forall env db r user src dst e,
    preflight r = false ->
    caller env r = Some user ->
    0 < CreateTransfer.amount (payload r) ->
    fault env 0 = None -> fault env 1 = None ->
    filter (CreateTransfer.source user (payload r)) (accounts db) = [src] ->
    CreateTransfer.amount (payload r) <= acc_balance src ->
    filter (CreateTransfer.destination (payload r)) (accounts db) = [dst] ->
    acc_id src <> acc_id dst ->
    fault env 3 = None -> fault env 4 = None ->
    (fault env 5 = Some e ->
     response (execute env (CallCreateTransfer r) db) = mkResponse 500 (BError e) /\
     transfers (store (execute env (CallCreateTransfer r) db)) = transfers db /\
     transactions (store (execute env (CallCreateTransfer r) db)) = transactions db) /\
    (fault env 5 = None -> fault env 6 = Some e ->
     status (response (execute env (CallCreateTransfer r) db)) = 200%nat /\
     List.length (transfers (store (execute env (CallCreateTransfer r) db)))
     = S (List.length (transfers db)) /\
     transactions (store (execute env (CallCreateTransfer r) db)) = transactions db) /\
    ((fault env 5 = Some e \/ fault env 6 = Some e) ->
     (forall v, In v (balance_of (store (execute env (CallCreateTransfer r) db))
                        (acc_id src)) ->
                v = acc_balance src - CreateTransfer.amount (payload r)) /\
     (forall v, In v (balance_of (store (execute env (CallCreateTransfer r) db))
                        (acc_id dst)) ->
                v = acc_balance dst + CreateTransfer.amount (payload r))).
Proof.
  intros env db r user src dst e Hp Hc Ha F0 F1 Fs Hb Fd Hne F3 F4.
  unfold preflight in Hp.
  open_handler. rewrite Hp. authenticate Hc.
  destruct (Z.leb_spec (CreateTransfer.amount (payload r)) 0); [lia|].
  unfold CreateTransfer.transfer, bind, select_accounts, update_balance, rpc,
    insert_transfer, insert_transactions, new_Date, call, json, ret, throw, single.
  simpl. rewrite F0, Fs. simpl.
  destruct (Z.ltb_spec (acc_balance src) (CreateTransfer.amount (payload r))); [lia|].
  simpl. rewrite F1, Fd. simpl.
  destruct (String.eqb (acc_id src) (acc_id dst)) eqn:Eid.
  { apply String.eqb_eq in Eid. contradiction. }
  simpl.
  assert (Hbal := fun t1 t2 =>
            balance_after_updates (accounts db) (acc_id src) (acc_id dst)
              (acc_balance src - CreateTransfer.amount (payload r))
              (acc_balance dst + CreateTransfer.amount (payload r)) t1 t2 Eid).
  destruct (fault env 2); simpl; rewrite F3; simpl; rewrite F4; simpl;
    (split; [intros F5; rewrite F5; simpl; repeat split|]);
    (split; [intros F5 F6; rewrite F5; simpl; rewrite F6; simpl; repeat split;
             rewrite length_app; simpl; lia|]);
    (intros [F5|F6];
     [rewrite F5; simpl; apply (Hbal (clock env 3) (clock env 4))
     |destruct (fault env 5); simpl;
      [|rewrite F6; simpl]; apply (Hbal (clock env 3) (clock env 4))]).
Qed.

Lemma create_transfer_late_refusals_witness :
  response (execute (sample_env (fault_at 5))
              (create_transfer_call "Bearer alice-token" 10) sample_db)
  = mkResponse 500 (BError "connection reset") /\
  transfers (store (execute (sample_env (fault_at 5))
                      (create_transfer_call "Bearer alice-token" 10) sample_db))
  = transfers sample_db /\
  transactions (store (execute (sample_env (fault_at 5))
                         (create_transfer_call "Bearer alice-token" 10) sample_db))
  = transactions sample_db.
Proof.
  apply (create_transfer_late_refusals (sample_env (fault_at 5)) sample_db
           (post (Some "Bearer alice-token")
              (CreateTransfer.mkTransferRequest "acc-a" "0000001002" 10 None))
           alice alice_account bob_account "connection reset");
    try reflexivity; try (simpl; lia); simpl; discriminate.
Defined.


